(** * Search-and-summary orchestration core of persona-pilot-service

    A shallow embedding of [src/services/elastic_service.py],
    [src/services/data_service.py] and the part of
    [src/services/ai/llm_service.py] they call, together with the
    properties of the specification that concern them; and of the job
    history of [src/handlers/async_job_handler.py] and the author
    identities of [src/models/insights_search_request.py].

    Python values are modelled as follows.
    - [str] is a list of Unicode code points ([N]); string literals of the
      source are written with [s2u].
    - [int] is [Z]; relevance scores (floats compared against the integer
      cutoff) are rationals [Q].
    - Documents are records, one per mapping ([ai_summary_cache_mappings],
      [insights_mappings]); a dict read from the store is the tagged union
      [Source].
    - The document store is a finite map from index names to finite maps
      from document ids to stored documents.
    - Coroutines are functions in a state-and-exception monad over the
      [World]; every collaborator call is recorded in the world's trace. *)

From Stdlib Require Import ZArith NArith QArith List String Ascii Bool Lia DecimalString.
From stdpp Require Import gmap list.
Import ListNotations.

Set Default Proof Using "Type".

(* ===================================================================== *)
(** * Python strings *)
(* ===================================================================== *)

Module PyStr.

Definition char := N.
Definition str := list N.

(** A literal of the source, as code points. *)
Definition s2u (s : string) : str :=
  List.map N_of_ascii (list_ascii_of_string s).

Definition in_range (lo hi c : N) : bool := ((lo <=? c) && (c <=? hi))%N.

(** [str.isspace] for one code point: the characters on which
    [str.split()] and [str.strip()] (without argument) act. *)
Definition is_space (c : char) : bool :=
  in_range 9 13 c || in_range 28 32 c || (c =? 133)%N || (c =? 160)%N
  || (c =? 5760)%N || in_range 8192 8202 c || (c =? 8232)%N
  || (c =? 8233)%N || (c =? 8239)%N || (c =? 8287)%N || (c =? 12288)%N.

(** The character class [[a-zA-Z0-9_]]. *)
Definition is_tag_char (c : char) : bool :=
  in_range 97 122 c || in_range 65 90 c || in_range 48 57 c || (c =? 95)%N.

(** [s.split()]: the maximal runs of non-whitespace characters, in
    order.  [cur] is the run being read, most recent character first. *)
Fixpoint split_from (cur : str) (s : str) : list str :=
  match s with
  | [] => match cur with [] => [] | _ => [rev cur] end
  | c :: s' =>
      if is_space c
      then match cur with
           | [] => split_from [] s'
           | _ => rev cur :: split_from [] s'
           end
      else split_from (c :: cur) s'
  end.

Definition split (s : str) : list str := split_from [] s.

(** [s.lstrip()], [s.rstrip()], [s.strip()]. *)
Fixpoint lstrip (s : str) : str :=
  match s with
  | c :: s' => if is_space c then lstrip s' else s
  | [] => []
  end.

Definition rstrip (s : str) : str := rev (lstrip (rev s)).
Definition strip (s : str) : str := rstrip (lstrip s).

(** [word.startswith('#')] *)
Definition startswith_hash (w : str) : bool :=
  match w with
  | c :: _ => (c =? 35)%N
  | [] => false
  end.

(** [s.startswith(p)] *)
Fixpoint startswith (p s : str) : bool :=
  match p, s with
  | [], _ => true
  | a :: p', b :: s' => (a =? b)%N && startswith p' s'
  | _ :: _, [] => false
  end.

(** [re.sub(r'[^a-zA-Z0-9_]', '', s)] *)
Definition sub_non_tag (s : str) : str := List.filter is_tag_char s.

(** [re.sub(r'[^a-zA-Z0-9_ ]', '', s)] *)
Definition sub_non_tag_space (s : str) : str :=
  List.filter (fun c => is_tag_char c || (c =? 32)%N) s.

(** Truth value of a string. *)
Definition truthy (s : str) : bool :=
  match s with [] => false | _ => true end.

End PyStr.
Export PyStr.

(* ===================================================================== *)
(** * ElasticService.extract_hashtags *)
(* ===================================================================== *)

(** [[word[1:] for word in words if word.startswith('#')]] followed by
    [[re.sub(r'[^a-zA-Z0-9_]', '', hashtag) for hashtag in hashtags]]. *)
Definition extract_hashtags (query : str) : list str :=
  let words := split query in
  let hashtags := List.map (@tl N) (List.filter startswith_hash words) in
  List.map sub_non_tag hashtags.


(* ===================================================================== *)
(** * Data model *)
(* ===================================================================== *)

(** An embedding vector. *)
Definition Vec := list Q.

(** A summary-cache document, with the fields of
    [ai_summary_cache_mappings]; [topic_vector] is kept apart because every
    read excludes it. *)
Module Cache.
Record Doc := mk {
  key : Z;
  topic : str;
  user_query : str;
  ai_summary_cache : option str;
  regions : option (list str);
  total_likes : Z;
  total_dislikes : Z;
  liked_by_cdsids : list str;
  disliked_by_cdsids : list str;
  last_liked_by : str;
  last_disliked_by : str;
  updated_by_cdsid : option str;
  updated_datetime_utc : str
}.

(** [document[field] = v] *)
Definition set_ai_summary_cache v d :=
  mk (key d) (topic d) (user_query d) v (regions d) (total_likes d)
     (total_dislikes d) (liked_by_cdsids d) (disliked_by_cdsids d)
     (last_liked_by d) (last_disliked_by d) (updated_by_cdsid d)
     (updated_datetime_utc d).
Definition set_total_likes v d :=
  mk (key d) (topic d) (user_query d) (ai_summary_cache d) (regions d) v
     (total_dislikes d) (liked_by_cdsids d) (disliked_by_cdsids d)
     (last_liked_by d) (last_disliked_by d) (updated_by_cdsid d)
     (updated_datetime_utc d).
Definition set_total_dislikes v d :=
  mk (key d) (topic d) (user_query d) (ai_summary_cache d) (regions d)
     (total_likes d) v (liked_by_cdsids d) (disliked_by_cdsids d)
     (last_liked_by d) (last_disliked_by d) (updated_by_cdsid d)
     (updated_datetime_utc d).
Definition set_liked_by_cdsids v d :=
  mk (key d) (topic d) (user_query d) (ai_summary_cache d) (regions d)
     (total_likes d) (total_dislikes d) v (disliked_by_cdsids d)
     (last_liked_by d) (last_disliked_by d) (updated_by_cdsid d)
     (updated_datetime_utc d).
Definition set_disliked_by_cdsids v d :=
  mk (key d) (topic d) (user_query d) (ai_summary_cache d) (regions d)
     (total_likes d) (total_dislikes d) (liked_by_cdsids d) v
     (last_liked_by d) (last_disliked_by d) (updated_by_cdsid d)
     (updated_datetime_utc d).
Definition set_last_liked_by v d :=
  mk (key d) (topic d) (user_query d) (ai_summary_cache d) (regions d)
     (total_likes d) (total_dislikes d) (liked_by_cdsids d)
     (disliked_by_cdsids d) v (last_disliked_by d) (updated_by_cdsid d)
     (updated_datetime_utc d).
Definition set_last_disliked_by v d :=
  mk (key d) (topic d) (user_query d) (ai_summary_cache d) (regions d)
     (total_likes d) (total_dislikes d) (liked_by_cdsids d)
     (disliked_by_cdsids d) (last_liked_by d) v (updated_by_cdsid d)
     (updated_datetime_utc d).
Definition set_updated_by_cdsid v d :=
  mk (key d) (topic d) (user_query d) (ai_summary_cache d) (regions d)
     (total_likes d) (total_dislikes d) (liked_by_cdsids d)
     (disliked_by_cdsids d) (last_liked_by d) (last_disliked_by d) v
     (updated_datetime_utc d).
Definition set_updated_datetime_utc v d :=
  mk (key d) (topic d) (user_query d) (ai_summary_cache d) (regions d)
     (total_likes d) (total_dislikes d) (liked_by_cdsids d)
     (disliked_by_cdsids d) (last_liked_by d) (last_disliked_by d)
     (updated_by_cdsid d) v.
End Cache.

(** An insight document: the four fields the summarizer may see, each
    possibly absent, and the remaining fields uninterpreted. *)
Module Insight.
Record Doc := mk {
  title : option str;
  description : option str;
  authors : option str;
  regions : option (list str);
  other_fields : list (str * str)
}.
End Insight.

(** The [_source] of a document read from the store. *)
Inductive Source :=
| SCache (d : Cache.Doc)
| SInsight (d : Insight.Doc).

(** A document as the store holds it. *)
Inductive StoredDoc :=
| StoredCache (body : Cache.Doc) (topic_vector : option Vec)
| StoredInsight (d : Insight.Doc).

(** [InsightsSearchRequest] *)
Module Req.
Record t := mk {
  index : str;
  cdsid : option str;
  ai_summary_cache_id : option str;
  regions : option (list str);
  categories : list str;
  authors : list str;
  sorted_by : str;
  logged_in_user_name : str;
  query : str;
  page_no : Z;
  page_size : Z
}.

(** [_request.query = v] and [_request.index = v] *)
Definition set_query v r :=
  mk (index r) (cdsid r) (ai_summary_cache_id r) (regions r) (categories r)
     (authors r) (sorted_by r) (logged_in_user_name r) v (page_no r)
     (page_size r).
Definition set_index v r :=
  mk v (cdsid r) (ai_summary_cache_id r) (regions r) (categories r)
     (authors r) (sorted_by r) (logged_in_user_name r) (query r) (page_no r)
     (page_size r).
End Req.

(** One hit of a search, and the result entry built from it. *)
Record Hit := mkHit {
  hit_id : str;
  hit_score : Q;
  hit_source : Source;
  highlight : option (list (str * list str))
}.

(** The queries sent to the index, reduced to their variable parts. *)
Inductive TermsClause :=
| TermsRegions (v : list str)
| TermsClassifications (v : list str)
| TermsAuthorsCdsid (v : list str).

Inductive SortClause :=
| SortScoreDesc
| SortUpdatedAsc
| SortUpdatedDesc.

(** [multi_match] of type [phrase] on one hashtag, as built by
    [get_queries_for_hash_tags_search]. *)
Record HashTagClause := mkHashTagClause {
  ht_query : str;
  ht_fields : list str;
  ht_boost : Z
}.

(** The dict built by [es_knn_query]. *)
Record KnnQuery := mkKnnQuery {
  mm_query : str;
  mm_fields : list str;
  mm_boost : Z;
  knn_query_vector : Vec;
  knn_num_candidates : Z;
  knn_must : option (list TermsClause);
  knn_hash_tags : option (list HashTagClause)
}.

Inductive EsQuery :=
| InsightsSearch (knn : KnnQuery) (permission_cdsid : option str)
                 (size from : Z) (sort : list SortClause)
| CacheSearch (query : str) (query_vector : Vec) (num_candidates : Z)
              (must_regions : option (list str)).

(** The trimmed document handed to the summarizer. *)
Record SummDoc := mkSummDoc {
  sd_title : option str;
  sd_description : option str;
  sd_authors : option str;
  sd_regions : option (list str)
}.

(** What is asked of the language model. *)
Inductive LlmPrompt :=
| PSummarize (query : str) (documents : list SummDoc)
| PKeywords (query : str)
| PAnalyse (user_query query_cache : str).

(** Exceptions.  [StrOf e] stands for [str(e)]. *)
Inductive exn :=
| InsightException (status_code : Z) (message : str)
| AppException (status_code : Z) (message : exn_msg)
| NotFoundError (info : str)
| KeyError (key : str)
| IndexError
| CollaboratorError (info : str)
with exn_msg :=
| Msg (text : str)
| StrOf (e : exn).

Inductive Res (A : Type) :=
| Ok (a : A)
| Raise (e : exn).
Arguments Ok {A} a.
Arguments Raise {A} e.

(** Collaborator calls, as recorded in the trace. *)
Inductive Event :=
| LlmCall (p : LlmPrompt)
| EmbedCall (text : str)
| EsSearch (index : str) (body : EsQuery).

(** The document store, the wall clock (milliseconds) and the calls made
    so far. *)
Record World := mkWorld {
  indices : gmap str (gmap str StoredDoc);
  clock_ms : Z;
  trace : list Event
}.

(** Unicode tables of the Python runtime that are not reproduced here:
    [str.isalnum] on code points from 128 on (on which, as in Unicode, no
    whitespace character is alphanumeric, and the long s, U+017F, is) and
    [str.lower]. *)
Record UnicodeTables := mkUnicodeTables {
  uni_alnum : char -> bool;
  uni_lower : str -> str;
  uni_alnum_space : forall c, is_space c = true -> uni_alnum c = false;
  uni_alnum_long_s : uni_alnum 383%N = true
}.

(** The collaborators of the core: the language model endpoint behind
    [LLMService.connect_llm], the JSON decoding of its keyword reply, the
    embedding service, the ranking done by the index on a search, the
    rendering of timestamps, and the deployment environment name. *)
Record Collaborators := mkCollaborators {
  unicode : UnicodeTables;
  connect_llm : LlmPrompt -> Res (option str);
  join_keywords : str -> Res str;
  to_embeddings : str -> Res Vec;
  es_search : str -> gmap str StoredDoc -> EsQuery -> Res (list Hit * Z);
  isoformat : Z -> str;
  properties_env : str
}.

(* ===================================================================== *)
(** * Coroutines: state and exceptions *)
(* ===================================================================== *)

Definition M (A : Type) : Type := World -> Res A * World.

Definition ret {A} (a : A) : M A := fun w => (Ok a, w).

Definition raise {A} (e : exn) : M A := fun w => (Raise e, w).

Definition bind {A B} (m : M A) (k : A -> M B) : M B :=
  fun w =>
    match m w with
    | (Ok a, w') => k a w'
    | (Raise e, w') => (Raise e, w')
    end.

(** [try: m  except Exception as e: h e] *)
Definition try_except {A} (m : M A) (h : exn -> M A) : M A :=
  fun w =>
    match m w with
    | (Ok a, w') => (Ok a, w')
    | (Raise e, w') => h e w'
    end.

Definition lift {A} (r : Res A) : M A := fun w => (r, w).

Definition log_call (e : Event) : M unit :=
  fun w => (Ok tt, mkWorld (indices w) (clock_ms w) (trace w ++ [e])).

Notation "'let*' x ':=' m 'in' k" := (bind m (fun x => k))
  (at level 10, x name, m at level 100, k at level 200).
Notation "'let*' ' p ':=' m 'in' k" := (bind m (fun x => match x with p => k end))
  (at level 10, p pattern, m at level 100, k at level 200).

(** [int(time.time() * 1000)] *)
Definition time_ms : M Z := fun w => (Ok (clock_ms w), w).

(** [str(n)] for an integer. *)
Definition str_of_int (n : Z) : str :=
  s2u (NilZero.string_of_int (Z.to_int n)).

(** [x in l] and [l.remove(x)] (first occurrence) on lists of strings. *)
Definition py_in (x : str) (l : list str) : bool := bool_decide (x ∈ l).

Fixpoint list_remove (x : str) (l : list str) : list str :=
  match l with
  | [] => []
  | y :: l' => if bool_decide (x = y) then l' else y :: list_remove x l'
  end.

Definition str_eqb (a b : str) : bool := bool_decide (a = b).

(** Truth value of an optional string and of an optional list. *)
Definition truthy_opt (o : option str) : bool :=
  match o with Some s => truthy s | None => false end.

Definition truthy_list {A} (l : list A) : bool :=
  match l with [] => false | _ => true end.

Definition truthy_opt_list {A} (o : option (list A)) : bool :=
  match o with Some l => truthy_list l | None => false end.

(* ===================================================================== *)
(** * The document store client (AsyncElasticsearch) *)
(* ===================================================================== *)

Module Es.

Definition set_indices (ix : gmap str (gmap str StoredDoc)) (w : World) : World :=
  mkWorld ix (clock_ms w) (trace w).

(** [_source] of a stored document; [topic_vector] is excluded. *)
Definition source_of (d : StoredDoc) : Source :=
  match d with
  | StoredCache body _ => SCache body
  | StoredInsight d => SInsight d
  end.

(** [indices.exists(index=name)] *)
Definition exists_ (name : str) : M bool :=
  fun w => (Ok (match indices w !! name with Some _ => true | None => false end), w).

(** [indices.create(index=name, body=...)] *)
Definition create (name : str) : M unit :=
  fun w =>
    match indices w !! name with
    | Some _ => (Raise (CollaboratorError (s2u "resource_already_exists_exception")), w)
    | None => (Ok tt, set_indices (<[name := ∅]> (indices w)) w)
    end.

(** [count(index=name)['count']] *)
Definition count (name : str) : M Z :=
  fun w =>
    match indices w !! name with
    | Some docs => (Ok (Z.of_nat (size docs)), w)
    | None => (Raise (NotFoundError name), w)
    end.

(** [get(index=name, id=id, source_excludes=["topic_vector"])] *)
Definition get (name id : str) : M Source :=
  fun w =>
    match indices w !! name with
    | Some docs =>
        match docs !! id with
        | Some d => (Ok (source_of d), w)
        | None => (Raise (NotFoundError id), w)
        end
    | None => (Raise (NotFoundError name), w)
    end.

(** [index(index=name, document=doc, id=id)]: the document replaces any
    document stored under [id]; a missing index is created. *)
Definition index (name id : str) (doc : StoredDoc) : M unit :=
  fun w =>
    let docs := default ∅ (indices w !! name) in
    (Ok tt, set_indices (<[name := <[id := doc]> docs]> (indices w)) w).

(** [update(index=name, id=id, body={"doc": doc, "doc_as_upsert": True})]:
    the fields of [doc] overwrite those of the stored document, whose
    [topic_vector] stays; an absent document is created from [doc].
    (The fields an insight document would keep under such an update are
    not tracked.) *)
Definition update (name id : str) (doc : Cache.Doc) : M unit :=
  fun w =>
    let docs := default ∅ (indices w !! name) in
    let merged :=
      match docs !! id with
      | Some (StoredCache _ v) => StoredCache doc v
      | Some (StoredInsight _) => StoredCache doc None
      | None => StoredCache doc None
      end in
    (Ok tt, set_indices (<[name := <[id := merged]> docs]> (indices w)) w).

(** [search(index=name, body=body)]: the hits and their total, as ranked
    by the index. *)
Definition search (C : Collaborators) (name : str) (body : EsQuery)
  : M (list Hit * Z) :=
  let* _ := log_call (EsSearch name body) in
  fun w =>
    match indices w !! name with
    | Some docs => (es_search C name docs body, w)
    | None => (Raise (NotFoundError name), w)
    end.

End Es.

(* ===================================================================== *)
(** * LLMService *)
(* ===================================================================== *)

Module LLMService.

Definition call (C : Collaborators) (p : LlmPrompt) : M (option str) :=
  let* _ := log_call (LlmCall p) in
  lift (connect_llm C p).

Definition summarize (C : Collaborators) (query : str) (documents : list SummDoc)
  : M (option str) :=
  call C (PSummarize query documents).

Definition extract_keywords (C : Collaborators) (query : str) : M (option str) :=
  let* content := call C (PKeywords query) in
  match content with
  | Some c =>
      if truthy c
      then let* joined := lift (join_keywords C c) in ret (Some joined)
      else ret None
  | None => ret None
  end.

Definition analyse_user_queries (C : Collaborators) (user_query query_cache : str)
  : M (option str) :=
  let* content := call C (PAnalyse user_query query_cache) in
  if truthy_opt content then ret content else ret None.

End LLMService.

(* ===================================================================== *)
(** * The reaction state machine *)
(* ===================================================================== *)

(** The [if]/[elif] block of [ElasticService.update_summary_cache]: the
    document after the reaction, or [None] where the source raises
    [InsightException(400, ...)]. *)
Definition reaction_transition (U : UnicodeTables) (user_reaction : str)
    (cdsid : option str) (logged_in_user_name : str) (document : Cache.Doc)
  : option Cache.Doc :=
  let norm s := uni_lower U (strip s) in
  if str_eqb user_reaction (s2u "like") then
    let document :=
      match cdsid with
      | Some c =>
          if negb (py_in c (Cache.liked_by_cdsids document))
          then Cache.set_liked_by_cdsids (Cache.liked_by_cdsids document ++ [c])
                 (Cache.set_total_likes (Cache.total_likes document + 1) document)
          else document
      | None => document
      end in
    let document :=
      match cdsid with
      | Some c =>
          if py_in c (Cache.disliked_by_cdsids document)
          then Cache.set_disliked_by_cdsids
                 (list_remove c (Cache.disliked_by_cdsids document))
                 (Cache.set_total_dislikes (Cache.total_dislikes document - 1) document)
          else document
      | None => document
      end in
    let document :=
      if str_eqb (norm logged_in_user_name) (norm (Cache.last_disliked_by document))
      then Cache.set_last_disliked_by
             (List.last (Cache.disliked_by_cdsids document) []) document
      else document in
    Some (Cache.set_last_liked_by logged_in_user_name document)
  else if str_eqb user_reaction (s2u "dislike") then
    let document :=
      match cdsid with
      | Some c =>
          if negb (py_in c (Cache.disliked_by_cdsids document))
          then Cache.set_disliked_by_cdsids (Cache.disliked_by_cdsids document ++ [c])
                 (Cache.set_total_dislikes (Cache.total_dislikes document + 1) document)
          else document
      | None => document
      end in
    let document :=
      match cdsid with
      | Some c =>
          if py_in c (Cache.liked_by_cdsids document)
          then Cache.set_liked_by_cdsids
                 (list_remove c (Cache.liked_by_cdsids document))
                 (Cache.set_total_likes (Cache.total_likes document - 1) document)
          else document
      | None => document
      end in
    let document :=
      if str_eqb (norm logged_in_user_name) (norm (Cache.last_liked_by document))
      then Cache.set_last_liked_by
             (List.last (Cache.liked_by_cdsids document) []) document
      else document in
    Some (Cache.set_last_disliked_by logged_in_user_name document)
  else if str_eqb user_reaction (s2u "reload") then
    let document := Cache.set_total_likes 0 document in
    let document := Cache.set_total_dislikes 0 document in
    let document := Cache.set_liked_by_cdsids [] document in
    let document := Cache.set_disliked_by_cdsids [] document in
    let document := Cache.set_last_liked_by [] document in
    let document := Cache.set_last_disliked_by [] document in
    Some document
  else None.

(* ===================================================================== *)
(** * ElasticService *)
(* ===================================================================== *)

Record EsResult := mkEsResult {
  hits : list Hit;
  total_hits : Z
}.

Record Documents := mkDocuments {
  results : list Hit;
  total_search_count : Z
}.

(** [{"summary": ...}] *)
Record AiSummaryCache := mkAiSummaryCache {
  summary : Source
}.

Module ElasticService.

Definition search_fields : list str :=
  List.map s2u ["title"; "description"; "finding"; "created_by"; "authors";
                "draft_viewers"; "file_path"; "file_link"; "data_source"]%string.

Definition hash_tag_fields : list str :=
  List.map s2u ["created_by_cdsid"; "authors_cdsid"; "draft_viewers_cdsid";
                "platform"; "regions"; "classifications"; "confidentiality"]%string.

(** [EsIndexPrefix.ai_summary_cache.name] *)
Definition ai_summary_cache_prefix : str := s2u "ai_summary_cache".

Definition check_index_exists (index_name : str) : M bool :=
  Es.exists_ index_name.

Definition raise_error_if_index_not_exists (index_name : str) : M unit :=
  let* exists_ := check_index_exists index_name in
  if negb exists_
  then raise (InsightException 404
                (s2u "Index " ++ index_name ++ s2u " does not exist."))
  else ret tt.

Definition create_index_if_not_exists (index_name : str) : M unit :=
  let* exists_ := check_index_exists index_name in
  if negb exists_ then Es.create index_name else ret tt.

Definition get_total_count (index_name : str) : M Z :=
  Es.count index_name.

Definition get_document_by_id (index_name document_id : str) : M Source :=
  let* _ := raise_error_if_index_not_exists index_name in
  Es.get index_name document_id.

Definition get_query_vector (C : Collaborators) (query : str) : M (str * Vec) :=
  let query := sub_non_tag_space query in
  let* _ := log_call (EmbedCall query) in
  let* query_vector := lift (to_embeddings C query) in
  ret (query, query_vector).

Definition get_queries_for_hash_tags_search (hash_tags : list str)
    (hash_tag_fields : list str) : list HashTagClause :=
  List.map (fun hash_tag => mkHashTagClause hash_tag hash_tag_fields 15) hash_tags.

Definition es_hash_tags_query (hash_tags : list str) (hash_tag_fields : list str)
  : list HashTagClause :=
  get_queries_for_hash_tags_search hash_tags hash_tag_fields.

Definition sorted_by (_request : Req.t) : list SortClause :=
  let sorted_by := [SortScoreDesc] in
  let sorted_by :=
    if str_eqb (Req.sorted_by _request) (s2u "lastUpdatedAsc")
    then sorted_by ++ [SortUpdatedAsc] else sorted_by in
  let sorted_by :=
    if str_eqb (Req.sorted_by _request) (s2u "lastUpdatedDesc")
    then sorted_by ++ [SortUpdatedDesc] else sorted_by in
  sorted_by.

Definition es_cosine_filters_query (_request : Req.t) : list TermsClause :=
  let must_clauses := [] in
  let must_clauses :=
    match Req.regions _request with
    | Some ((_ :: _) as r) => must_clauses ++ [TermsRegions r]
    | _ => must_clauses
    end in
  let must_clauses :=
    if truthy_list (Req.categories _request)
    then must_clauses ++ [TermsClassifications (Req.categories _request)]
    else must_clauses in
  let must_clauses :=
    if truthy_list (Req.authors _request)
    then must_clauses ++ [TermsAuthorsCdsid (Req.authors _request)]
    else must_clauses in
  must_clauses.

Definition es_knn_query (search_fields : list str) (query : str)
    (query_vector : Vec) (hash_tags : list str) (hash_tag_fields : list str)
    (_request : Req.t) : KnnQuery :=
  let must :=
    if truthy_opt_list (Req.regions _request)
       || truthy_list (Req.categories _request)
       || truthy_list (Req.authors _request)
    then Some (es_cosine_filters_query _request) else None in
  let tags :=
    if truthy_list hash_tags
    then Some (es_hash_tags_query hash_tags hash_tag_fields) else None in
  mkKnnQuery query search_fields 10 query_vector 5 must tags.

Definition get_es_query (C : Collaborators) (_request : Req.t) (total_docs : Z)
  : M EsQuery :=
  let cdsid := Req.cdsid _request in
  let query := Req.query _request in
  let hash_tags := extract_hashtags query in
  let page_number := Req.page_no _request in
  let page_size := Req.page_size _request in
  let* '(query, query_vector) := get_query_vector C query in
  let max_result_window := 10000%Z in
  let from_param := ((page_number - 1) * page_size)%Z in
  if (from_param + page_size >? max_result_window)%Z
  then raise (InsightException 400
                (s2u "Requested range exceeds the maximum allowed. Please adjust the page size."))
  else if (from_param >=? total_docs)%Z
  then raise (InsightException 404 (s2u "No more documents to fetch"))
  else
    let es_knn_query :=
      es_knn_query search_fields query query_vector hash_tags hash_tag_fields
        _request in
    ret (InsightsSearch es_knn_query cdsid
           (Z.min page_size (total_docs - from_param)) from_param
           (sorted_by _request)).

Definition es_search_query (query : str) (query_vector : Vec)
    (num_candidates : Z) (regions : option (list str)) : EsQuery :=
  CacheSearch query query_vector num_candidates
    (if truthy_opt_list regions then regions else None).

Definition get_ai_summary_cache_query (C : Collaborators) (_request : Req.t)
  : M EsQuery :=
  let* '(query, query_vector) := get_query_vector C (Req.query _request) in
  ret (es_search_query query query_vector 5 (Req.regions _request)).

Definition elastic_search (C : Collaborators) (_request : Req.t)
  : M (option EsResult) :=
  let* _ := raise_error_if_index_not_exists (Req.index _request) in
  let* total_docs := get_total_count (Req.index _request) in
  if (total_docs >? 0)%Z then
    let* es_query :=
      if startswith ai_summary_cache_prefix (Req.index _request)
      then get_ai_summary_cache_query C _request
      else get_es_query C _request total_docs in
    let* '(hits, total_hits) := Es.search C (Req.index _request) es_query in
    ret (Some (mkEsResult hits total_hits))
  else ret None.

Definition get_documents_from_search_insights (C : Collaborators)
    (_request : Req.t) : M (option Documents) :=
  let* result := elastic_search C _request in
  match result with
  | None => ret None
  | Some result =>
      let results :=
        List.map (fun hit => mkHit (hit_id hit) (hit_score hit) (hit_source hit)
                               (highlight hit))
          (hits result) in
      ret (Some (mkDocuments results (total_hits result)))
  end.

(** The new entry holds the topic as [get_query_vector] cleans it, and
    the embedding of the cleaned text. *)
Definition new_ai_summary_cache_document (C : Collaborators) (key : Z)
    (topic user_query : str) (ai_summary : option str) (cdsid : option str)
    (regions : option (list str)) : M StoredDoc :=
  let* '(topic, topic_vector) := get_query_vector C topic in
  let* now := time_ms in
  ret (StoredCache
         (Cache.mk key topic user_query ai_summary regions 0 0 [] [] [] []
            cdsid (isoformat C now))
         (Some topic_vector)).

Definition update_summary_cache (C : Collaborators) (key : str) (index : str)
    (document : Cache.Doc) (user_reaction : str) (cdsid : option str)
    (logged_in_user_name : str) : M Source :=
  match reaction_transition (unicode C) user_reaction cdsid logged_in_user_name
          document with
  | None =>
      raise (InsightException 400
               (s2u "Invalid user reaction " ++ user_reaction ++ s2u "."))
  | Some document =>
      let document := Cache.set_updated_by_cdsid cdsid document in
      let* now := time_ms in
      let document := Cache.set_updated_datetime_utc (isoformat C now) document in
      let* _ := Es.update index key document in
      get_document_by_id index key
  end.

Definition cache_ai_summaries (C : Collaborators) (key : option str)
    (topic user_query : str) (ai_summary : option str) (index_name : str)
    (cdsid : option str) (logged_in_user_name : str)
    (regions : option (list str)) : M AiSummaryCache :=
  let* _ := create_index_if_not_exists index_name in
  let* key :=
    match key with
    | Some ((_ :: _) as key) =>
        let* result := get_document_by_id index_name key in
        match result with
        | SCache ai_summary_cache_document =>
            let ai_summary_cache_document :=
              Cache.set_ai_summary_cache ai_summary ai_summary_cache_document in
            let* _ := update_summary_cache C key index_name
                        ai_summary_cache_document (s2u "reload") cdsid
                        logged_in_user_name in
            ret key
        | SInsight _ => raise (KeyError (s2u "topic"))
        end
    | _ =>
        let* key := time_ms in
        let* ai_summary_cache_document :=
          new_ai_summary_cache_document C key topic user_query ai_summary cdsid
            regions in
        let* _ := Es.index index_name (str_of_int key) ai_summary_cache_document in
        ret (str_of_int key)
    end in
  let* response := get_document_by_id index_name key in
  ret (mkAiSummaryCache response).

End ElasticService.

(* ===================================================================== *)
(** * The pattern [\byes\b] under [re.IGNORECASE] *)
(* ===================================================================== *)

Module Re.

(** [\w]: below 128 the class [[a-zA-Z0-9_]], above it the alphanumeric
    characters of Unicode. *)
Definition is_word (U : UnicodeTables) (c : char) : bool :=
  if (c <? 128)%N then is_tag_char c else uni_alnum U c.

Definition word_opt (U : UnicodeTables) (o : option char) : bool :=
  match o with Some c => is_word U c | None => false end.

(** [\b] between two neighbouring characters, [None] standing for either
    end of the string. *)
Definition boundary (U : UnicodeTables) (a b : option char) : bool :=
  xorb (word_opt U a) (word_opt U b).

(** The characters matched by the letters [y], [e] and [s] when case is
    ignored. *)
Definition ci_y (c : char) : bool := (c =? 121)%N || (c =? 89)%N.
Definition ci_e (c : char) : bool := (c =? 101)%N || (c =? 69)%N.
Definition ci_s (c : char) : bool := (c =? 115)%N || (c =? 83)%N || (c =? 383)%N.

(** A match starting at the head of [s], the character before it being
    [prev]. *)
Definition match_yes_at (U : UnicodeTables) (prev : option char) (s : str) : bool :=
  match s with
  | y :: e :: z :: post =>
      boundary U prev (Some y) && ci_y y && ci_e e && ci_s z
      && boundary U (Some z) (head post)
  | _ => false
  end.

Fixpoint search_yes_from (U : UnicodeTables) (prev : option char) (s : str) : bool :=
  match s with
  | [] => false
  | c :: rest => match_yes_at U prev s || search_yes_from U (Some c) rest
  end.

(** [bool(re.search(r'\byes\b', s, re.IGNORECASE))] *)
Definition search_yes (U : UnicodeTables) (s : str) : bool :=
  search_yes_from U None s.

End Re.

(* ===================================================================== *)
(** * DataService *)
(* ===================================================================== *)

(** [Insights(insight_records, count).to_dict()] *)
Record InsightsDict := mkInsightsDict {
  insights : list Hit;
  total_records : Z
}.

(** The [summary] entry of a search response: a cache document, or [{}]. *)
Inductive SummaryPayload :=
| SummaryDoc (d : Source)
| SummaryEmpty.

Record SearchResponse := mkSearchResponse {
  resp_summary : SummaryPayload;
  search_results : InsightsDict
}.

Module DataService.

(** The score cutoff of [search_insights_v2]. *)
Definition score_cutoff : Q := 14 # 1.

Definition no_results_summary : str :=
  s2u ("I'm sorry, but there are no search results for your query. If you have any other queries or "
       ++ "need assistance with different information, feel free to ask.").

(** [{field: doc[field] for field in fields_to_summarize if field in doc}] *)
Definition filtered_doc (doc : Source) : SummDoc :=
  match doc with
  | SInsight d =>
      mkSummDoc (Insight.title d) (Insight.description d) (Insight.authors d)
        (Insight.regions d)
  | SCache d => mkSummDoc None None None (Cache.regions d)
  end.

(** The loop of [get_insights_summary], which stops after
    [summarizing_length] documents. *)
Fixpoint documents_to_summarize (summarizing_length : nat) (docs : list Source)
  : list SummDoc :=
  match docs with
  | [] => []
  | doc :: rest =>
      match summarizing_length with
      | O => []
      | S n => filtered_doc doc :: documents_to_summarize n rest
      end
  end.

Definition get_insights_summary (C : Collaborators) (query : str)
    (search_results : list Hit) : M (option str) :=
  let insight_documents := List.map hit_source search_results in
  let documents := documents_to_summarize 10 insight_documents in
  try_except (LLMService.summarize C query documents)
    (fun _ => ret (Some [])).

Definition summarize_and_cache (C : Collaborators) (original_query : str)
    (search_results : list Hit) (_request : Req.t) : M AiSummaryCache :=
  let* ai_summary := get_insights_summary C original_query search_results in
  ElasticService.cache_ai_summaries C (Req.ai_summary_cache_id _request)
    (Req.query _request) original_query ai_summary (Req.index _request)
    (Req.cdsid _request) (Req.logged_in_user_name _request)
    (Req.regions _request).

(** [result['_source'].get('regions') == []] *)
Definition source_regions_empty (s : Source) : bool :=
  match s with
  | SCache d => match Cache.regions d with Some [] => true | _ => false end
  | SInsight d => match Insight.regions d with Some [] => true | _ => false end
  end.

(** [llm_response and bool(re.search(r'\byes\b', str(llm_response).strip(),
    re.IGNORECASE))] *)
Definition affirmative (U : UnicodeTables) (llm_response : option str) : bool :=
  match llm_response with
  | Some r => truthy r && Re.search_yes U (strip r)
  | None => false
  end.

(** The [except NotFoundError] and [except Exception] clauses of
    [get_ai_summary_from_cache]. *)
Definition except_clauses (C : Collaborators) (original_query : str)
    (_request : Req.t) (search_results : list Hit) (e : exn) : M AiSummaryCache :=
  match e with
  | NotFoundError _ => summarize_and_cache C original_query search_results _request
  | _ => raise (AppException 500 (StrOf e))
  end.

(** The candidates left by
    [if _request.regions is None or _request.regions == []: ...]. *)
Definition candidates (_request : Req.t) (response : Documents) : list Hit :=
  match Req.regions _request with
  | None | Some [] =>
      List.filter (fun result => source_regions_empty (hit_source result))
        (results response)
  | _ => results response
  end.

Definition get_ai_summary_from_cache (C : Collaborators) (original_query : str)
    (_request : Req.t) (search_results : list Hit) : M AiSummaryCache :=
  let* is_ai_summary_cache_index_exists :=
    ElasticService.check_index_exists (Req.index _request) in
  if negb is_ai_summary_cache_index_exists
  then summarize_and_cache C original_query search_results _request
  else
    try_except
      (let* response :=
         ElasticService.get_documents_from_search_insights C _request in
       match response with
       | None => summarize_and_cache C original_query search_results _request
       | Some response =>
           if (total_search_count response >? 0)%Z then
             match candidates _request response with
             | [] => raise IndexError
             | result :: _ =>
                 let doc := hit_source result in
                 match doc with
                 | SInsight _ => raise (KeyError (s2u "user_query"))
                 | SCache d =>
                     let query_cache := Cache.user_query d in
                     let* llm_response :=
                       LLMService.analyse_user_queries C original_query query_cache in
                     if affirmative (unicode C) llm_response
                     then ret (mkAiSummaryCache doc)
                     else summarize_and_cache C original_query search_results
                            _request
                 end
             end
           else summarize_and_cache C original_query search_results _request
       end)
      (except_clauses C original_query _request search_results).

(** [if keywords_query: _request.query = keywords_query] *)
Definition rewrite_query (keywords_query : option str) (_request : Req.t) : Req.t :=
  match keywords_query with
  | Some ((_ :: _) as k) => Req.set_query k _request
  | _ => _request
  end.

Definition search_insights_v2 (C : Collaborators) (_request : Req.t)
  : M SearchResponse :=
  let original_query := Req.query _request in
  let* keywords_query := LLMService.extract_keywords C original_query in
  let _request := rewrite_query keywords_query _request in
  let* response := ElasticService.get_documents_from_search_insights C _request in
  let* response :=
    match response with
    | Some r => ret r
    | None => raise (KeyError (s2u "results"))
    end in
  let search_results :=
    List.filter (fun result => Qle_bool score_cutoff (hit_score result))
      (results response) in
  let total_search_count := total_search_count response in
  let page_no := Req.page_no _request in
  let* ai_summary_cache :=
    if (total_search_count >? 0)%Z then
      if (page_no =? 1)%Z then
        let index_name :=
          ElasticService.ai_summary_cache_prefix ++ s2u "_"
          ++ uni_lower (unicode C) (strip (properties_env C)) in
        let _request := Req.set_index index_name _request in
        if truthy_opt (Req.ai_summary_cache_id _request)
        then let* c := summarize_and_cache C original_query search_results _request in
             ret (Some c)
        else let* c := get_ai_summary_from_cache C original_query _request
                         search_results in
             ret (Some c)
      else ret None
    else
      let* c :=
        ElasticService.cache_ai_summaries C (Req.ai_summary_cache_id _request)
          (Req.query _request) original_query (Some no_results_summary)
          (Req.index _request) (Req.cdsid _request)
          (Req.logged_in_user_name _request) (Req.regions _request) in
      ret (Some c) in
  let search_results_dict := mkInsightsDict search_results total_search_count in
  if (page_no =? 1)%Z then
    match ai_summary_cache with
    | Some c => ret (mkSearchResponse (SummaryDoc (summary c)) search_results_dict)
    | None => raise (KeyError (s2u "summary"))
    end
  else ret (mkSearchResponse SummaryEmpty search_results_dict).

End DataService.

(* ===================================================================== *)
(** * Observations and properties of states *)
(* ===================================================================== *)

(** Calls of the summarization collaborator and queries sent to the index,
    counted on a trace. *)
Definition is_summarize (e : Event) : bool :=
  match e with
  | LlmCall (PSummarize _ _) => true
  | _ => false
  end.

Definition is_search (e : Event) : bool :=
  match e with
  | EsSearch _ _ => true
  | _ => false
  end.

(** The number of events of a kind on a trace. *)
Definition calls (p : Event -> bool) (t : list Event) : nat :=
  length (List.filter p t).

Definition summarize_calls (t : list Event) : nat := calls is_summarize t.

Definition search_calls (t : list Event) : nat := calls is_search t.

(** A computation that adds [n] events of a kind to the trace, whatever
    its outcome; a silent one adds none. *)
Definition adds (n : nat) (p : Event -> bool) {A} (m : M A) : Prop :=
  forall w, calls p (trace (snd (m w))) = (n + calls p (trace w))%nat.

Definition silent (p : Event -> bool) {A} (m : M A) : Prop := adds 0 p m.

(** No reactor identity is in both membership lists. *)
Definition at_most_one_membership (d : Cache.Doc) : Prop :=
  forall c, ~ (c ∈ Cache.liked_by_cdsids d /\ c ∈ Cache.disliked_by_cdsids d).

(** The membership lists are sets: no identity is listed twice. *)
Definition duplicate_free (d : Cache.Doc) : Prop :=
  NoDup (Cache.liked_by_cdsids d) /\ NoDup (Cache.disliked_by_cdsids d).

(** The world after one more recorded call. *)
Definition logged (e : Event) (w : World) : World :=
  mkWorld (indices w) (clock_ms w) (trace w ++ [e]).

(** The [topic_vector] an update of the document under [id] leaves in
    place. *)
Definition kept_vector (docs : gmap str StoredDoc) (id : str) : option Vec :=
  match docs !! id with
  | Some (StoredCache _ v) => v
  | _ => None
  end.

(** The fields no reaction touches. *)
Definition same_content (d d' : Cache.Doc) : Prop :=
  Cache.key d' = Cache.key d /\ Cache.topic d' = Cache.topic d
  /\ Cache.user_query d' = Cache.user_query d
  /\ Cache.ai_summary_cache d' = Cache.ai_summary_cache d
  /\ Cache.regions d' = Cache.regions d.

(** The audit stamp every transition ends with. *)
Definition stamped (C : Collaborators) (cdsid : option str) (now : Z)
    (d : Cache.Doc) : Cache.Doc :=
  Cache.set_updated_datetime_utc (isoformat C now)
    (Cache.set_updated_by_cdsid cdsid d).

(** The answer contains the standalone word "yes", case ignored: the three
    letters, neither preceded nor followed by a word character. *)
Definition contains_standalone_yes (U : UnicodeTables) (s : str) : Prop :=
  exists pre y e z post,
    s = pre ++ y :: e :: z :: post
    /\ Re.ci_y y = true /\ Re.ci_e e = true /\ Re.ci_s z = true
    /\ (pre = [] \/ exists p c, pre = p ++ [c] /\ Re.is_word U c = false)
    /\ (post = [] \/ exists c p, post = c :: p /\ Re.is_word U c = false).

Definition answer_says_yes (U : UnicodeTables) (answer : option str) : Prop :=
  match answer with
  | Some s => contains_standalone_yes U s
  | None => False
  end.

(** The document stored under an id of an index, if any. *)
Definition stored (w : World) (index_name id : str) : option StoredDoc :=
  match indices w !! index_name with
  | Some docs => docs !! id
  | None => None
  end.

(* ===================================================================== *)
(** * A concrete deployment, for the examples *)
(* ===================================================================== *)

Module Demo.

(** ASCII lower-casing; the long s is the only letter known above 127. *)
Definition lower_char (c : char) : char :=
  if in_range 65 90 c then (c + 32)%N else c.

Definition alnum (c : char) : bool := (c =? 383)%N.

Lemma alnum_space : forall c, is_space c = true -> alnum c = false.
Proof.
  intros c H. unfold alnum. destruct (N.eqb_spec c 383) as [->|]; [|reflexivity].
  vm_compute in H. discriminate.
Defined.

Definition tables : UnicodeTables :=
  mkUnicodeTables alnum (List.map lower_char) alnum_space (eq_refl true).

Definition llm (answer : option str) (p : LlmPrompt) : Res (option str) :=
  match p with
  | PSummarize _ _ => Ok (Some (s2u "A summary."))
  | PKeywords _ => Ok None
  | PAnalyse _ _ => Ok answer
  end.

Definition ranking (insight_hits cache_hits : list Hit * Z)
    (index_name : str) (docs : gmap str StoredDoc) (q : EsQuery)
  : Res (list Hit * Z) :=
  match q with
  | InsightsSearch _ _ _ _ _ => Ok insight_hits
  | CacheSearch _ _ _ _ => Ok cache_hits
  end.

Definition collaborators (insight_hits cache_hits : list Hit * Z)
    (answer : option str) : Collaborators :=
  mkCollaborators tables (llm answer) Ok (fun _ => Ok [])
    (ranking insight_hits cache_hits) str_of_int (s2u " DEV").

Definition insight (n : string) : Insight.Doc :=
  Insight.mk (Some (s2u n)) (Some (s2u "text")) None (Some [s2u "NA"]) [].

Definition hit (n : string) (score : Q) : Hit :=
  mkHit (s2u n) score (SInsight (insight n)) None.

Definition insights_index : str := s2u "insights_dev".
Definition cache_index : str := s2u "ai_summary_cache_dev".

(** A cached summary of topic "blue cruise", scoped to [regions]. *)
Definition cached (regions : option (list str)) : Cache.Doc :=
  Cache.mk 1700000000000 (s2u "blue cruise") (s2u "what is blue cruise")
    (Some (s2u "Cached text.")) regions 2 1 [s2u "AB1"; s2u "CD2"] [s2u "EF3"]
    (s2u "Ann") (s2u "Eve") (Some (s2u "CD2")) (s2u "1700000000000").

Definition cache_hit (regions : option (list str)) : Hit :=
  mkHit (s2u "1700000000000") (3 # 1) (SCache (cached regions)) None.

(** Ten insights in the search index; [cache] is the content of the cache
    index, if that index exists. *)
Definition ten_insights : gmap str StoredDoc :=
  list_to_map
    (List.map (fun n => (str_of_int n, StoredInsight (insight "doc")))
       [1; 2; 3; 4; 5; 6; 7; 8; 9; 10]%Z).

Definition world (cache : option (gmap str StoredDoc)) : World :=
  mkWorld
    (match cache with
     | Some docs => <[cache_index := docs]> {[ insights_index := ten_insights ]}
     | None => {[ insights_index := ten_insights ]}
     end)
    1730000000000 [].

(** A cache index holding the one summary [cached regions]. *)
Definition cache_key : str := s2u "1700000000000".

Definition cache_docs (regions : option (list str)) : gmap str StoredDoc :=
  {[ cache_key := StoredCache (cached regions) (Some [1 # 2; 1 # 3]) ]}.

Definition plain : Collaborators := collaborators ([], 0%Z) ([], 0%Z) None.

(** The index finds one insight above the cutoff and, in the cache, the
    summary scoped to [regions]; the model answers [answer] when asked
    whether two queries mean the same. *)
Definition with_candidate (regions : option (list str)) (answer : option str)
  : Collaborators :=
  collaborators ([hit "a" (20 # 1)], 1%Z) ([cache_hit regions], 1%Z) answer.

(** The index returns five hits, two of them below the cutoff. *)
Definition five_hits : Collaborators :=
  collaborators
    ([hit "a" (20 # 1); hit "b" (15 # 1); hit "c" (14 # 1); hit "d" (139 # 10);
      hit "e" (2 # 1)], 5%Z)
    ([], 0%Z) None.


(** The search index exists and holds no document. *)
Definition empty_world : World :=
  mkWorld {[ insights_index := ∅ ]} 1730000000000 [].

Definition request (cache_id : option str) (regions : option (list str))
    (page_no page_size : Z) : Req.t :=
  Req.mk insights_index (Some (s2u "AB1")) cache_id regions [] []
    (s2u "relevance") (s2u "Ann") (s2u "blue #cruise feature") page_no page_size.

End Demo.

(* ===================================================================== *)
(** * Deleting insights *)
(* ===================================================================== *)

Module EsDelete.

(** [delete(index=name, id=id)] *)
Definition delete_document (name id : str) : M unit :=
  fun w =>
    match indices w !! name with
    | Some docs =>
        match docs !! id with
        | Some _ => (Ok tt, Es.set_indices (<[name := base.delete id docs]> (indices w)) w)
        | None => (Raise (NotFoundError id), w)
        end
    | None => (Raise (NotFoundError name), w)
    end.

(** [indices.delete(index=name)] *)
Definition delete_index (name : str) : M unit :=
  fun w =>
    match indices w !! name with
    | Some _ => (Ok tt, Es.set_indices (base.delete name (indices w)) w)
    | None => (Raise (NotFoundError name), w)
    end.

End EsDelete.

(** [ElasticService.delete_insight_by_key], [delete_insight] and
    [delete_insights]; the key is an [int] or [None], and the document id
    is its decimal rendering. *)
Module ElasticDelete.

Definition delete_insight_by_key (_index_name : str) (key : Z) : M unit :=
  EsDelete.delete_document _index_name (str_of_int key).

Definition delete_insight (_index_name : str) (key : option Z) : M unit :=
  match key with
  | Some k =>
      if (k =? 0)%Z then EsDelete.delete_index _index_name
      else delete_insight_by_key _index_name k
  | None => EsDelete.delete_index _index_name
  end.

Definition delete_insights (index_name : str) (key : option Z) : M unit :=
  let* _ := ElasticService.raise_error_if_index_not_exists index_name in
  delete_insight index_name key.

End ElasticDelete.

(* ===================================================================== *)
(** * InsightsSearchRequest.to_instance: the authors *)
(* ===================================================================== *)

Module SearchRequest.

(** After an opening parenthesis: the shortest run of characters other
    than a newline that a closing parenthesis ends, as [(.*?)\)] matches
    it. *)
Fixpoint group_until_paren (s : str) : option str :=
  match s with
  | [] => None
  | c :: s' =>
      if (c =? 41)%N then Some []
      else if (c =? 10)%N then None
      else match group_until_paren s' with
           | Some g => Some (c :: g)
           | None => None
           end
  end.

(** [re.search(r'\((.*?)\)', name)] and its [group(1)]. *)
Fixpoint search_parenthesised (name : str) : option str :=
  match name with
  | [] => None
  | c :: s' =>
      if (c =? 40)%N
      then match group_until_paren s' with
           | Some g => Some g
           | None => search_parenthesised s'
           end
      else search_parenthesised s'
  end.

(** The loop over [author_display_names]. *)
Fixpoint author_cdsids (author_display_names : list str) : list str :=
  match author_display_names with
  | [] => []
  | name :: rest =>
      match search_parenthesised name with
      | Some g => g :: author_cdsids rest
      | None => author_cdsids rest
      end
  end.

End SearchRequest.

(* ===================================================================== *)
(** * AsyncJobHandler *)
(* ===================================================================== *)

Module AsyncJobHandler.

(** The [data] of a job: a dict of strings, or [None]. *)
Definition JobData := list (str * str).

Record Job := mkJob {
  job_id : Z;
  name : str;
  status : str;
  data : option JobData
}.

Definition capacity : nat := 30.

(** [min(timestamps)] over the keys of the history; [None] stands for the
    [ValueError] on an empty history, which a history at capacity is
    not. *)
Definition oldest_timestamp (job_history : gmap Z Job) : option Z :=
  match List.map fst (map_to_list job_history) with
  | [] => None
  | k :: ks => Some (List.fold_right Z.min k ks)
  end.

Definition register (job_id : Z) (name status : str) (data : option JobData)
    (job_history : gmap Z Job) : gmap Z Job :=
  let job_history :=
    if (capacity <=? size job_history)%nat
    then match oldest_timestamp job_history with
         | Some oldest => base.delete oldest job_history
         | None => job_history
         end
    else job_history in
  <[job_id := mkJob job_id name status data]> job_history.

(** [{}] is [None]. *)
Definition get (job_id : Z) (job_history : gmap Z Job) : option Job :=
  job_history !! job_id.

Definition update (job_id : option Z) (status : str) (data : option JobData)
    (job_history : gmap Z Job) : gmap Z Job :=
  match job_id with
  | Some id =>
      match job_history !! id with
      | Some job =>
          <[id := mkJob (AsyncJobHandler.job_id job) (AsyncJobHandler.name job)
                    status data]> job_history
      | None => job_history
      end
  | None => job_history
  end.

Definition cleanup (job_history : gmap Z Job) : gmap Z Job := ∅.

Definition remove (job_id : option Z) (job_history : gmap Z Job) : gmap Z Job :=
  match job_id with
  | Some id =>
      if (id =? 0)%Z then cleanup job_history
      else match job_history !! id with
           | Some _ => base.delete id job_history
           | None => job_history
           end
  | None => cleanup job_history
  end.

End AsyncJobHandler.

(* ===================================================================== *)
(** * Further observations and samples *)
(* ===================================================================== *)

(** The summary-cache documents the service writes: those that
    [new_ai_summary_cache_document] creates, and what
    [update_summary_cache] makes of such a document, also after
    [cache_ai_summaries] has replaced its summary text. *)
Inductive written (U : UnicodeTables) : Cache.Doc -> Prop :=
| written_new key topic user_query ai_summary regions cdsid stamp :
    written U
      (Cache.mk key topic user_query ai_summary regions 0 0 [] [] [] [] cdsid
         stamp)
| written_text ai_summary d :
    written U d -> written U (Cache.set_ai_summary_cache ai_summary d)
| written_reaction r cdsid name stamp d d' :
    written U d ->
    reaction_transition U r cdsid name d = Some d' ->
    written U
      (Cache.set_updated_datetime_utc stamp (Cache.set_updated_by_cdsid cdsid d')).

(** The counters equal the lengths of the membership lists. *)
Definition counts_match (d : Cache.Doc) : Prop :=
  Cache.total_likes d = Z.of_nat (length (Cache.liked_by_cdsids d))
  /\ Cache.total_dislikes d = Z.of_nat (length (Cache.disliked_by_cdsids d)).

(** The same request for another page. *)
Definition with_page (page_no page_size : Z) (r : Req.t) : Req.t :=
  Req.mk (Req.index r) (Req.cdsid r) (Req.ai_summary_cache_id r) (Req.regions r)
    (Req.categories r) (Req.authors r) (Req.sorted_by r)
    (Req.logged_in_user_name r) (Req.query r) page_no page_size.

(** The values of a terms clause. *)
Definition terms_values (t : TermsClause) : list str :=
  match t with
  | TermsRegions v => v
  | TermsClassifications v => v
  | TermsAuthorsCdsid v => v
  end.

(** The size and offset of an insights query. *)
Definition query_window (q : EsQuery) : option (Z * Z) :=
  match q with
  | InsightsSearch _ _ size from _ => Some (size, from)
  | CacheSearch _ _ _ _ => None
  end.

(** The prompt [get_insights_summary] sends. *)
Definition summary_prompt (query : str) (search_results : list Hit) : LlmPrompt :=
  PSummarize query
    (List.map DataService.filtered_doc
       (List.firstn 10 (List.map hit_source search_results))).

(** The summary text a reply of the model, or its failure, leaves. *)
Definition summary_text (reply : Res (option str)) : option str :=
  match reply with
  | Ok s => s
  | Raise _ => Some []
  end.

(** Every job of the history is stored under its own [job_id]. *)
Definition well_keyed (job_history : gmap Z AsyncJobHandler.Job) : Prop :=
  forall id job,
    job_history !! id = Some job -> AsyncJobHandler.job_id job = id.

(** A computation that leaves the indices and the clock as they are,
    whatever its outcome. *)
Definition keeps_store {A} (m : M A) : Prop :=
  forall w, indices (snd (m w)) = indices w /\ clock_ms (snd (m w)) = clock_ms w.

Module Samples.

Definition job (id : Z) : AsyncJobHandler.Job :=
  AsyncJobHandler.mkJob id (s2u "sync") (s2u "IN_PROGRESS") None.

(** Thirty jobs, numbered 101 to 130. *)
Definition full_history : gmap Z AsyncJobHandler.Job :=
  list_to_map (List.map (fun n => (Z.of_nat n + 100, job (Z.of_nat n + 100))%Z)
                 (List.seq 1 30)).




(** Two jobs, and twenty-nine (numbered 101 to 129). *)
Definition two_jobs : gmap Z AsyncJobHandler.Job :=
  <[101%Z := job 101]> {[ 102%Z := job 102 ]}.

Definition nearly_full_history : gmap Z AsyncJobHandler.Job :=
  list_to_map (List.map (fun n => (Z.of_nat n + 100, job (Z.of_nat n + 100))%Z)
                 (List.seq 1 29)).

(** A cached summary whose counters equal the lengths of its lists. *)
Definition counted : Cache.Doc :=
  Cache.set_total_dislikes 1 (Cache.set_total_likes 2 (Demo.cached (Some []))).

(** The cache index of the demo, with the one counted summary. *)
Definition counted_world : World :=
  Demo.world (Some {[ Demo.cache_key := StoredCache counted (Some [1 # 2]) ]}).

(** The request of the demo, against the cache index. *)
Definition cache_request (page_no page_size : Z) : Req.t :=
  Req.set_index Demo.cache_index (Demo.request None None page_no page_size).

(** The request of the demo with every filter set. *)
Definition filtered_request : Req.t :=
  Req.mk Demo.insights_index (Some (s2u "AB1")) None (Some [s2u "NA"])
    [s2u "Performance"] [s2u "JDOE1"] (s2u "relevance") (s2u "Ann")
    (s2u "blue #cruise feature") 1 24.

End Samples.

(* ===================================================================== *)
(** * Properties of [str.split] and of hashtag extraction *)
(* ===================================================================== *)

Section Hashtags.

Implicit Types (s t cur : str) (c : char).

Lemma split_from_space cur a c b :
  is_space c = true ->
  split_from cur (a ++ c :: b) = split_from cur a ++ split_from [] b.
Proof.
  intros Hc. revert cur.
  induction a as [|x a IH]; intros cur; simpl.
  - rewrite Hc. destruct cur; reflexivity.
  - destruct (is_space x).
    + destruct cur; rewrite IH; reflexivity.
    + apply IH.
Qed.

Lemma split_from_token cur t :
  Forall (fun c => is_space c = false) t ->
  split_from cur t = match rev cur ++ t with [] => [] | w => [w] end.
Proof.
  intros Ht. revert cur.
  induction Ht as [|x t Hx Ht IH]; intros cur; simpl.
  - rewrite app_nil_r. destruct cur as [|y cur]; [reflexivity|].
    simpl. destruct (rev cur ++ [y]) eqn:E; [|reflexivity].
    destruct (rev cur); discriminate.
  - rewrite Hx, IH. simpl. rewrite <- app_assoc. reflexivity.
Qed.

(** A whitespace character separates the tokens on its two sides. *)
Lemma split_space a c b :
  is_space c = true -> split (a ++ c :: b) = split a ++ split b.
Proof. apply split_from_space. Qed.

(** A non-empty run without whitespace is one token. *)
Lemma split_token t :
  t <> [] -> Forall (fun c => is_space c = false) t -> split t = [t].
Proof.
  intros Hne Ht. unfold split. rewrite split_from_token by assumption.
  simpl. destruct t; [contradiction|reflexivity].
Qed.

Lemma sub_non_tag_only_tag_chars s :
  Forall (fun c => is_tag_char c = true) (sub_non_tag s).
Proof.
  apply List.Forall_forall. intros c Hc.
  apply List.filter_In in Hc. apply Hc.
Qed.

(** C5, counterexample: the token [#!] is kept and yields an empty
    hashtag, which is not dropped. *)
Lemma extract_hashtags_keeps_empty_result :
  extract_hashtags (s2u "blue #! feature") = [[]].
Proof. reflexivity. Qed.

(** C5, as amended: hashtag extraction is a function of the query alone;
    whitespace separates tokens, a token starting with '#' yields exactly
    one result, namely the token without its first character and without
    any character outside [a-zA-Z0-9_] (possibly the empty string), any
    other token yields none; every result consists of characters of
    [a-zA-Z0-9_]; the empty query yields the empty list and
    "blue #cruise feature" yields ["cruise"]. *)
Theorem extract_hashtags_by_token :
  (forall a c b, is_space c = true ->
     extract_hashtags (a ++ c :: b) = extract_hashtags a ++ extract_hashtags b)
  /\ (forall t, t <> [] -> Forall (fun c => is_space c = false) t ->
        extract_hashtags t
        = if startswith_hash t then [List.filter is_tag_char (tl t)] else [])
  /\ (forall q, Forall (Forall (fun c => is_tag_char c = true)) (extract_hashtags q))
  /\ (forall q, length (extract_hashtags q)
                = length (List.filter startswith_hash (split q)))
  /\ extract_hashtags [] = []
  /\ extract_hashtags (s2u "blue #cruise feature") = [s2u "cruise"].
Proof.
  repeat split.
  - intros a c b Hc. unfold extract_hashtags.
    rewrite split_space by assumption.
    rewrite List.filter_app, !List.map_app. reflexivity.
  - intros t Hne Ht. unfold extract_hashtags.
    rewrite split_token by assumption. simpl.
    destruct (startswith_hash t); reflexivity.
  - intros q. unfold extract_hashtags.
    apply List.Forall_forall. intros h Hh.
    apply List.in_map_iff in Hh as [x [<- _]].
    apply sub_non_tag_only_tag_chars.
  - intros q. unfold extract_hashtags. rewrite !List.length_map. reflexivity.
Qed.

End Hashtags.

(* ===================================================================== *)
(** * The reaction state machine *)
(* ===================================================================== *)

Section Reactions.

Implicit Types (d : Cache.Doc) (c x y : str) (l : list str).

Lemma py_in_true c l : py_in c l = true <-> c ∈ l.
Proof. unfold py_in. apply bool_decide_eq_true. Qed.

Lemma py_in_false c l : py_in c l = false <-> c ∉ l.
Proof. unfold py_in. apply bool_decide_eq_false. Qed.





(** The outcome of [like] by an identified reactor, field by field. *)
Lemma like_fields U c name d :
  exists d',
    reaction_transition U (s2u "like") (Some c) name d = Some d'
    /\ Cache.liked_by_cdsids d'
       = (if py_in c (Cache.liked_by_cdsids d) then Cache.liked_by_cdsids d
          else Cache.liked_by_cdsids d ++ [c])
    /\ Cache.total_likes d'
       = (if py_in c (Cache.liked_by_cdsids d) then Cache.total_likes d
          else Cache.total_likes d + 1)%Z
    /\ Cache.disliked_by_cdsids d'
       = (if py_in c (Cache.disliked_by_cdsids d)
          then list_remove c (Cache.disliked_by_cdsids d)
          else Cache.disliked_by_cdsids d)
    /\ Cache.total_dislikes d'
       = (if py_in c (Cache.disliked_by_cdsids d) then Cache.total_dislikes d - 1
          else Cache.total_dislikes d)%Z
    /\ same_content d d'.
Proof.
  unfold reaction_transition.
  change (str_eqb (s2u "like") (s2u "like")) with true. cbv iota zeta.
  destruct (py_in c (Cache.liked_by_cdsids d)) eqn:E1; cbn;
    destruct (py_in c (Cache.disliked_by_cdsids d)) eqn:E2; cbn;
    match goal with |- context [if ?b then _ else _] => destruct b end;
    (eexists; split; [reflexivity|]); unfold same_content; cbn;
    repeat split; reflexivity.
Qed.

(** The outcome of [dislike] by an identified reactor, field by field. *)
Lemma dislike_fields U c name d :
  exists d',
    reaction_transition U (s2u "dislike") (Some c) name d = Some d'
    /\ Cache.disliked_by_cdsids d'
       = (if py_in c (Cache.disliked_by_cdsids d) then Cache.disliked_by_cdsids d
          else Cache.disliked_by_cdsids d ++ [c])
    /\ Cache.total_dislikes d'
       = (if py_in c (Cache.disliked_by_cdsids d) then Cache.total_dislikes d
          else Cache.total_dislikes d + 1)%Z
    /\ Cache.liked_by_cdsids d'
       = (if py_in c (Cache.liked_by_cdsids d)
          then list_remove c (Cache.liked_by_cdsids d)
          else Cache.liked_by_cdsids d)
    /\ Cache.total_likes d'
       = (if py_in c (Cache.liked_by_cdsids d) then Cache.total_likes d - 1
          else Cache.total_likes d)%Z
    /\ same_content d d'.
Proof.
  unfold reaction_transition.
  change (str_eqb (s2u "dislike") (s2u "like")) with false.
  change (str_eqb (s2u "dislike") (s2u "dislike")) with true. cbv iota zeta.
  destruct (py_in c (Cache.disliked_by_cdsids d)) eqn:E1; cbn;
    destruct (py_in c (Cache.liked_by_cdsids d)) eqn:E2; cbn;
    match goal with |- context [if ?b then _ else _] => destruct b end;
    (eexists; split; [reflexivity|]); unfold same_content; cbn;
    repeat split; reflexivity.
Qed.

(** A reaction without reactor identity leaves counters and memberships
    alone. *)
Lemma anonymous_fields U r name d :
  r = s2u "like" \/ r = s2u "dislike" ->
  exists d',
    reaction_transition U r None name d = Some d'
    /\ Cache.liked_by_cdsids d' = Cache.liked_by_cdsids d
    /\ Cache.total_likes d' = Cache.total_likes d
    /\ Cache.disliked_by_cdsids d' = Cache.disliked_by_cdsids d
    /\ Cache.total_dislikes d' = Cache.total_dislikes d
    /\ same_content d d'.
Proof.
  intros [-> | ->]; unfold reaction_transition.
  - change (str_eqb (s2u "like") (s2u "like")) with true. cbv iota zeta.
    match goal with |- context [if ?b then _ else _] => destruct b end;
      (eexists; split; [reflexivity|]); unfold same_content; cbn;
      repeat split; reflexivity.
  - change (str_eqb (s2u "dislike") (s2u "like")) with false.
    change (str_eqb (s2u "dislike") (s2u "dislike")) with true. cbv iota zeta.
    match goal with |- context [if ?b then _ else _] => destruct b end;
      (eexists; split; [reflexivity|]); unfold same_content; cbn;
      repeat split; reflexivity.
Qed.

(** [reload] resets the reaction state and nothing else. *)
Lemma reload_fields U cdsid name d :
  reaction_transition U (s2u "reload") cdsid name d
  = Some (Cache.mk (Cache.key d) (Cache.topic d) (Cache.user_query d)
            (Cache.ai_summary_cache d) (Cache.regions d) 0 0 [] [] [] []
            (Cache.updated_by_cdsid d) (Cache.updated_datetime_utc d)).
Proof. reflexivity. Qed.

End Reactions.

(* ===================================================================== *)
(** * Running coroutines *)
(* ===================================================================== *)

Section Running.

Context {A B : Type}.

Lemma bind_ok (m : M A) (k : A -> M B) w a w' :
  m w = (Ok a, w') -> bind m k w = k a w'.
Proof. intros H. unfold bind. by rewrite H. Qed.

Lemma bind_raise (m : M A) (k : A -> M B) w e w' :
  m w = (Raise e, w') -> bind m k w = (Raise e, w').
Proof. intros H. unfold bind. by rewrite H. Qed.

Lemma try_except_ok (m : M A) (h : exn -> M A) w a w' :
  m w = (Ok a, w') -> try_except m h w = (Ok a, w').
Proof. intros H. unfold try_except. by rewrite H. Qed.

Lemma try_except_raise (m : M A) (h : exn -> M A) w e w' :
  m w = (Raise e, w') -> try_except m h w = h e w'.
Proof. intros H. unfold try_except. by rewrite H. Qed.

End Running.

Section RunningTheStore.

Implicit Types (w : World) (index id : str) (docs : gmap str StoredDoc).

Lemma check_index_exists_found w index docs :
  indices w !! index = Some docs ->
  ElasticService.check_index_exists index w = (Ok true, w).
Proof.
  intros H. unfold ElasticService.check_index_exists, Es.exists_. by rewrite H.
Qed.

Lemma check_index_exists_missing w index :
  indices w !! index = None ->
  ElasticService.check_index_exists index w = (Ok false, w).
Proof.
  intros H. unfold ElasticService.check_index_exists, Es.exists_. by rewrite H.
Qed.

Lemma raise_error_if_index_not_exists_found w index docs :
  indices w !! index = Some docs ->
  ElasticService.raise_error_if_index_not_exists index w = (Ok tt, w).
Proof.
  intros H. unfold ElasticService.raise_error_if_index_not_exists.
  by rewrite (bind_ok _ _ _ _ _ (check_index_exists_found _ _ _ H)).
Qed.

Lemma create_index_if_not_exists_found w index docs :
  indices w !! index = Some docs ->
  ElasticService.create_index_if_not_exists index w = (Ok tt, w).
Proof.
  intros H. unfold ElasticService.create_index_if_not_exists.
  by rewrite (bind_ok _ _ _ _ _ (check_index_exists_found _ _ _ H)).
Qed.


Lemma get_total_count_found w index docs :
  indices w !! index = Some docs ->
  ElasticService.get_total_count index w = (Ok (Z.of_nat (size docs)), w).
Proof.
  intros H. unfold ElasticService.get_total_count, Es.count. by rewrite H.
Qed.

Lemma get_document_by_id_found w index id sd :
  stored w index id = Some sd ->
  ElasticService.get_document_by_id index id w = (Ok (Es.source_of sd), w).
Proof.
  unfold stored. intros H.
  destruct (indices w !! index) as [docs|] eqn:Hix; [|discriminate].
  unfold ElasticService.get_document_by_id.
  rewrite (bind_ok _ _ _ _ _ (raise_error_if_index_not_exists_found _ _ _ Hix)).
  unfold Es.get. cbv beta. by rewrite Hix, H.
Qed.

Lemma stored_lookup w index id docs :
  indices w !! index = Some docs -> stored w index id = docs !! id.
Proof. intros H. unfold stored. by rewrite H. Qed.

End RunningTheStore.

(* ===================================================================== *)
(** * Persisting a reaction *)
(* ===================================================================== *)

Section Persisting.

Variable C : Collaborators.

Lemma stored_set_indices w ix index key docs sd :
  stored (Es.set_indices (<[index := <[key := sd]> docs]> ix) w) index key
  = Some sd.
Proof.
  unfold stored, Es.set_indices. simpl.
  rewrite lookup_insert_eq. apply lookup_insert_eq.
Qed.

(** In an existing index, [update_summary_cache] succeeds for every valid
    reaction: it stores the stamped outcome of the transition under the
    key, keeping the stored [topic_vector], and returns what it stored. *)
Lemma update_summary_cache_persists key index d r cdsid name w docs d1 :
  indices w !! index = Some docs ->
  reaction_transition (unicode C) r cdsid name d = Some d1 ->
  ElasticService.update_summary_cache C key index d r cdsid name w
  = (Ok (SCache (stamped C cdsid (clock_ms w) d1)),
     Es.set_indices
       (<[index := <[key := StoredCache (stamped C cdsid (clock_ms w) d1)
                              (kept_vector docs key)]> docs]>
          (indices w)) w).
Proof.
  intros Hix Hr.
  unfold ElasticService.update_summary_cache. rewrite Hr.
  unfold bind, time_ms, Es.update, ElasticService.get_document_by_id,
    ElasticService.raise_error_if_index_not_exists,
    ElasticService.check_index_exists, Es.exists_, Es.get, ret, bind.
  cbn. rewrite Hix. cbn. unfold stamped, kept_vector.
  destruct (docs !! key) as [[? ?|?]|];
    repeat (rewrite lookup_insert_eq; cbn); reflexivity.
Qed.

End Persisting.

(* ===================================================================== *)
(** * Reactions: exclusivity, idempotence, frame *)
(* ===================================================================== *)

Section ReactionTheorems.

Implicit Types (d : Cache.Doc) (c x : str) (A B : list str).


(** Exclusivity can be checked by running through the liked list. *)
Lemma at_most_one_membership_check d :
  forallb (fun c => negb (py_in c (Cache.disliked_by_cdsids d)))
    (Cache.liked_by_cdsids d) = true ->
  at_most_one_membership d.
Proof.
  intros H c [H1 H2]. rewrite forallb_forall in H.
  apply list_elem_of_In in H1. specialize (H c H1).
  apply negb_true_iff, py_in_false in H. by apply H.
Qed.

Lemma duplicate_free_check d :
  bool_decide (NoDup (Cache.liked_by_cdsids d)) = true ->
  bool_decide (NoDup (Cache.disliked_by_cdsids d)) = true ->
  duplicate_free d.
Proof.
  intros H1 H2. apply bool_decide_eq_true in H1, H2. by split.
Qed.





Variable C : Collaborators.



(** What [new_ai_summary_cache_document] creates is such a document. *)
Lemma new_document_is_written U key topic user_query ai_summary cdsid regions
    w d v w' :
  ElasticService.new_ai_summary_cache_document C key topic user_query ai_summary
    cdsid regions w = (Ok (StoredCache d v), w') ->
  written U d.
Proof.
  unfold ElasticService.new_ai_summary_cache_document,
    ElasticService.get_query_vector, bind, log_call, lift, time_ms, ret.
  cbn. destruct (to_embeddings C _); [|discriminate].
  intros [= <- _ _]. apply written_new.
Qed.


(** C7: for a reactor in neither membership list, [like] increments
    [total_likes] by one and leaves [total_dislikes] as it was; a second
    [like] by the same reactor on the document so obtained, whenever and
    under whatever display name it comes, changes neither counter and
    neither membership list. *)
Theorem like_once_counts_once
    key index document c name name' w docs :
  indices w !! index = Some docs ->
  c ∉ Cache.liked_by_cdsids document ->
  c ∉ Cache.disliked_by_cdsids document ->
  exists d1 w1,
    ElasticService.update_summary_cache C key index document (s2u "like") (Some c)
      name w = (Ok (SCache d1), w1)
    /\ Cache.total_likes d1 = (Cache.total_likes document + 1)%Z
    /\ Cache.total_dislikes d1 = Cache.total_dislikes document
    /\ forall w' docs', indices w' !! index = Some docs' ->
       exists d2 w2,
         ElasticService.update_summary_cache C key index d1 (s2u "like") (Some c)
           name' w' = (Ok (SCache d2), w2)
         /\ Cache.total_likes d2 = Cache.total_likes d1
         /\ Cache.total_dislikes d2 = Cache.total_dislikes d1
         /\ Cache.liked_by_cdsids d2 = Cache.liked_by_cdsids d1
         /\ Cache.disliked_by_cdsids d2 = Cache.disliked_by_cdsids d1.
Proof.
  intros Hix HnL HnD.
  apply py_in_false in HnL, HnD.
  destruct (like_fields (unicode C) c name document)
    as (d1 & Hd1 & HLk & HTl & HDl & HTd & _).
  rewrite HnL in HLk, HTl. rewrite HnD in HDl, HTd.
  pose proof (update_summary_cache_persists C key index document _ _ name w docs
                d1 Hix Hd1) as Hrun.
  eexists _, _. split; [exact Hrun|]. cbn.
  split; [exact HTl|]. split; [exact HTd|].
  intros w' docs' Hix'.
  set (s1 := stamped C (Some c) (clock_ms w) d1).
  destruct (like_fields (unicode C) c name' s1)
    as (d2 & Hd2 & HLk2 & HTl2 & HDl2 & HTd2 & _).
  assert (E1 : py_in c (Cache.liked_by_cdsids s1) = true).
  { apply py_in_true. cbn. rewrite HLk. apply elem_of_app. right.
    by apply list_elem_of_singleton. }
  assert (E2 : py_in c (Cache.disliked_by_cdsids s1) = false).
  { cbn. by rewrite HDl. }
  rewrite E1 in HLk2, HTl2. rewrite E2 in HDl2, HTd2.
  pose proof (update_summary_cache_persists C key index s1 _ _ name' w' docs' d2
                Hix' Hd2) as Hrun'.
  eexists _, _. split; [exact Hrun'|]. cbn. done.
Qed.

(** C10: a [like] or [dislike] without reactor identity succeeds in an
    existing index and persists a document with the counters, the
    membership lists, the key, the topic, the user query, the summary text
    and the region scope of the document it was given; [updated_by_cdsid]
    of the persisted document is [None]. *)
Theorem anonymous_reaction_changes_no_count
    key index document r name w docs :
  indices w !! index = Some docs ->
  r = s2u "like" \/ r = s2u "dislike" ->
  exists d' v w',
    ElasticService.update_summary_cache C key index document r None name w
    = (Ok (SCache d'), w')
    /\ stored w' index key = Some (StoredCache d' v)
    /\ Cache.total_likes d' = Cache.total_likes document
    /\ Cache.total_dislikes d' = Cache.total_dislikes document
    /\ Cache.liked_by_cdsids d' = Cache.liked_by_cdsids document
    /\ Cache.disliked_by_cdsids d' = Cache.disliked_by_cdsids document
    /\ same_content document d'
    /\ Cache.updated_by_cdsid d' = None.
Proof.
  intros Hix Hr.
  destruct (anonymous_fields (unicode C) r name document Hr)
    as (d1 & Hd1 & HLk & HTl & HDl & HTd & Hsame).
  pose proof (update_summary_cache_persists C key index document r None name w
                docs d1 Hix Hd1) as Hrun.
  eexists _, _, _. split; [exact Hrun|].
  split; [apply stored_set_indices|]. cbn.
  unfold same_content in *. cbn. tauto.
Qed.

End ReactionTheorems.



(** C7, witness: a first like by ZZ9, whom the cached summary does not
    know, and a second one. *)
Lemma like_once_counts_once_witness :
  exists d1 w1,
    ElasticService.update_summary_cache Demo.plain Demo.cache_key
      Demo.cache_index (Demo.cached None) (s2u "like") (Some (s2u "ZZ9"))
      (s2u "Zed") (Demo.world (Some (Demo.cache_docs None)))
    = (Ok (SCache d1), w1)
    /\ Cache.total_likes d1 = 3%Z /\ Cache.total_dislikes d1 = 1%Z
    /\ exists d2 w2,
         ElasticService.update_summary_cache Demo.plain Demo.cache_key
           Demo.cache_index d1 (s2u "like") (Some (s2u "ZZ9")) (s2u "Zed") w1
         = (Ok (SCache d2), w2)
         /\ Cache.total_likes d2 = 3%Z /\ Cache.total_dislikes d2 = 1%Z
         /\ Cache.liked_by_cdsids d2 = Cache.liked_by_cdsids d1
         /\ Cache.disliked_by_cdsids d2 = Cache.disliked_by_cdsids d1.
Proof.
  destruct (like_once_counts_once Demo.plain Demo.cache_key Demo.cache_index
              (Demo.cached None) (s2u "ZZ9") (s2u "Zed") (s2u "Zed")
              (Demo.world (Some (Demo.cache_docs None))) (Demo.cache_docs None))
    as (d1 & w1 & Hrun & HT & HD & Hagain).
  - reflexivity.
  - apply py_in_false. reflexivity.
  - apply py_in_false. reflexivity.
  - exists d1, w1. split; [exact Hrun|]. split; [exact HT|]. split; [exact HD|].
    assert (Hix : exists docs', indices w1 !! Demo.cache_index = Some docs').
    { vm_compute in Hrun. injection Hrun as _ <-. eexists. reflexivity. }
    destruct Hix as [docs' Hix].
    destruct (Hagain w1 docs' Hix) as (d2 & w2 & Hrun2 & HT2 & HD2 & HL2 & HDl2).
    exists d2, w2. split; [exact Hrun2|].
    rewrite HT2, HD2, HT, HD, HL2, HDl2. repeat split; reflexivity.
Defined.

(** C10, witness: a dislike whose reactor identity is missing. *)
Lemma anonymous_reaction_changes_no_count_witness :
  exists d',
    fst (ElasticService.update_summary_cache Demo.plain Demo.cache_key
           Demo.cache_index (Demo.cached None) (s2u "dislike") None (s2u "Ann")
           (Demo.world (Some (Demo.cache_docs None))))
    = Ok (SCache d')
    /\ Cache.total_likes d' = 2%Z /\ Cache.total_dislikes d' = 1%Z
    /\ Cache.liked_by_cdsids d' = [s2u "AB1"; s2u "CD2"]
    /\ Cache.disliked_by_cdsids d' = [s2u "EF3"]
    /\ Cache.updated_by_cdsid d' = None.
Proof.
  destruct (anonymous_reaction_changes_no_count Demo.plain Demo.cache_key
              Demo.cache_index (Demo.cached None) (s2u "dislike") (s2u "Ann")
              (Demo.world (Some (Demo.cache_docs None))) (Demo.cache_docs None))
    as (d' & v & w' & Hrun & _ & HT & HD & HL & HDl & _ & HU).
  - reflexivity.
  - by right.
  - exists d'. rewrite Hrun. split; [reflexivity|].
    rewrite HT, HD, HL, HDl, HU. repeat split; reflexivity.
Defined.

(* ===================================================================== *)
(** * Reload through [cache_ai_summaries] *)
(* ===================================================================== *)

Section Reload.

Variable C : Collaborators.

(** C8: [reload] sets both counters to zero, empties both membership lists
    and clears both last-actor fields, whatever they were; and
    [cache_ai_summaries], given the key of a stored summary, succeeds,
    stores under that key the document with the new summary text, the
    reaction state reset, the audit stamp renewed and every other field
    (and the topic vector) as before, and returns the stored document. *)
Theorem cache_ai_summaries_existing_key_reloads
    (k topic user_query : str) (ai_summary : option str) (index : str)
    (cdsid : option str) (name : str) (regions : option (list str)) (w : World)
    (docs : gmap str StoredDoc) (body : Cache.Doc) (v : option Vec) :
  k <> [] ->
  indices w !! index = Some docs ->
  docs !! k = Some (StoredCache body v) ->
  (forall U cdsid' name' d,
     exists d1,
       reaction_transition U (s2u "reload") cdsid' name' d = Some d1
       /\ Cache.total_likes d1 = 0%Z /\ Cache.total_dislikes d1 = 0%Z
       /\ Cache.liked_by_cdsids d1 = [] /\ Cache.disliked_by_cdsids d1 = []
       /\ Cache.last_liked_by d1 = [] /\ Cache.last_disliked_by d1 = [])
  /\ exists w',
       ElasticService.cache_ai_summaries C (Some k) topic user_query ai_summary
         index cdsid name regions w
       = (Ok (mkAiSummaryCache
                (SCache (Cache.mk (Cache.key body) (Cache.topic body)
                           (Cache.user_query body) ai_summary (Cache.regions body)
                           0 0 [] [] [] [] cdsid (isoformat C (clock_ms w))))),
          w')
       /\ stored w' index k
          = Some (StoredCache
                    (Cache.mk (Cache.key body) (Cache.topic body)
                       (Cache.user_query body) ai_summary (Cache.regions body)
                       0 0 [] [] [] [] cdsid (isoformat C (clock_ms w)))
                    v)
       /\ trace w' = trace w.
Proof.
  intros Hk Hix Hdoc. split.
  - intros U cdsid' name' d. eexists. split; [apply reload_fields|].
    cbn. by repeat split.
  - pose proof (update_summary_cache_persists C k index
                  (Cache.set_ai_summary_cache ai_summary body) (s2u "reload") cdsid
                  name w docs _ Hix (reload_fields _ _ _ _)) as Hup.
    unfold kept_vector in Hup. rewrite Hdoc in Hup.
    assert (Hst : stored w index k = Some (StoredCache body v))
      by by rewrite (stored_lookup _ _ _ _ Hix).
    eexists. split; [|split].
    + unfold ElasticService.cache_ai_summaries.
      rewrite (bind_ok _ _ _ _ _ (create_index_if_not_exists_found _ _ _ Hix)).
      destruct k as [|k0 k']; [done|].
      erewrite bind_ok; cycle 1.
      { erewrite bind_ok by (apply get_document_by_id_found; exact Hst).
        cbn [Es.source_of].
        erewrite bind_ok by exact Hup. reflexivity. }
      erewrite bind_ok; [reflexivity|].
      erewrite get_document_by_id_found by apply stored_set_indices.
      reflexivity.
    + apply stored_set_indices.
    + reflexivity.
Qed.

End Reload.

(** C8, witness: the cached summary of the demo, reloaded with a new
    text. *)
Lemma cache_ai_summaries_existing_key_reloads_witness :
  exists w',
    ElasticService.cache_ai_summaries Demo.plain (Some Demo.cache_key)
      (s2u "blue cruise") (s2u "what is blue cruise") (Some (s2u "New text."))
      Demo.cache_index (Some (s2u "AB1")) (s2u "Ann") None
      (Demo.world (Some (Demo.cache_docs None)))
    = (Ok (mkAiSummaryCache
             (SCache (Cache.mk 1700000000000 (s2u "blue cruise")
                        (s2u "what is blue cruise") (Some (s2u "New text.")) None
                        0 0 [] [] [] [] (Some (s2u "AB1"))
                        (s2u "1730000000000")))),
       w').
Proof.
  destruct (cache_ai_summaries_existing_key_reloads Demo.plain Demo.cache_key
              (s2u "blue cruise") (s2u "what is blue cruise")
              (Some (s2u "New text.")) Demo.cache_index (Some (s2u "AB1"))
              (s2u "Ann") None (Demo.world (Some (Demo.cache_docs None)))
              (Demo.cache_docs None) (Demo.cached None) (Some [1 # 2; 1 # 3]))
    as (_ & w' & Hrun & _).
  - discriminate.
  - reflexivity.
  - reflexivity.
  - exists w'. exact Hrun.
Defined.

(* ===================================================================== *)
(** * Which collaborators a coroutine calls *)
(* ===================================================================== *)

Section Calls.

Variable p : Event -> bool.

Lemma calls_snoc t e :
  calls p (t ++ [e]) = ((if p e then 1 else 0) + calls p t)%nat.
Proof.
  unfold calls. rewrite List.filter_app, List.length_app. cbn.
  destruct (p e); cbn; lia.
Qed.

Lemma silent_ret {A} (a : A) : silent p (ret a).
Proof. intros w. reflexivity. Qed.

Lemma silent_raise {A} e : silent p (@raise A e).
Proof. intros w. reflexivity. Qed.

Lemma silent_lift {A} (r : Res A) : silent p (lift r).
Proof. intros w. reflexivity. Qed.

Lemma silent_time_ms : silent p time_ms.
Proof. intros w. reflexivity. Qed.

Lemma silent_log_call e : p e = false -> silent p (log_call e).
Proof.
  intros H w. cbv beta iota delta [snd trace log_call].
  rewrite calls_snoc, H. reflexivity.
Qed.

Lemma adds_log_call e : p e = true -> adds 1 p (log_call e).
Proof.
  intros H w. cbv beta iota delta [snd trace log_call].
  rewrite calls_snoc, H. reflexivity.
Qed.

(** A computation followed by silent ones adds what it adds alone. *)
Lemma adds_bind {A B} n (m : M A) (k : A -> M B) :
  adds n p m -> (forall a, silent p (k a)) -> adds n p (bind m k).
Proof.
  intros Hm Hk w. specialize (Hm w). unfold bind.
  destruct (m w) as [[a|e] w']; cbn in *; [|exact Hm].
  rewrite (Hk a w'). exact Hm.
Qed.

Lemma silent_bind {A B} (m : M A) (k : A -> M B) :
  silent p m -> (forall a, silent p (k a)) -> silent p (bind m k).
Proof. apply adds_bind. Qed.

Lemma adds_try_except {A} n (m : M A) (h : exn -> M A) :
  adds n p m -> (forall e, silent p (h e)) -> adds n p (try_except m h).
Proof.
  intros Hm Hh w. specialize (Hm w). unfold try_except.
  destruct (m w) as [[a|e] w']; cbn in *; [exact Hm|].
  rewrite (Hh e w'). exact Hm.
Qed.

Lemma silent_try_except {A} (m : M A) (h : exn -> M A) :
  silent p m -> (forall e, silent p (h e)) -> silent p (try_except m h).
Proof. apply adds_try_except. Qed.

Lemma silent_exists_ name : silent p (Es.exists_ name).
Proof. intros w. reflexivity. Qed.

Lemma silent_create name : silent p (Es.create name).
Proof. intros w. unfold Es.create. by destruct (indices w !! name). Qed.

Lemma silent_count name : silent p (Es.count name).
Proof. intros w. unfold Es.count. by destruct (indices w !! name). Qed.

Lemma silent_get name id : silent p (Es.get name id).
Proof.
  intros w. unfold Es.get.
  destruct (indices w !! name) as [docs|]; [|done]. by destruct (docs !! id).
Qed.

Lemma silent_index name id doc : silent p (Es.index name id doc).
Proof. intros w. reflexivity. Qed.

Lemma silent_update name id doc : silent p (Es.update name id doc).
Proof. intros w. reflexivity. Qed.

Lemma silent_search C name body :
  p (EsSearch name body) = false -> silent p (Es.search C name body).
Proof.
  intros H. unfold Es.search. apply silent_bind; [by apply silent_log_call|].
  intros _ w. by destruct (indices w !! name).
Qed.

Lemma silent_llm_call C q :
  p (LlmCall q) = false -> silent p (LLMService.call C q).
Proof.
  intros H. unfold LLMService.call.
  apply silent_bind; [by apply silent_log_call|]. intros _. apply silent_lift.
Qed.

Lemma adds_llm_call C q :
  p (LlmCall q) = true -> adds 1 p (LLMService.call C q).
Proof.
  intros H. unfold LLMService.call.
  apply adds_bind; [by apply adds_log_call|]. intros _. apply silent_lift.
Qed.

End Calls.

(** Steps through a coroutine, discharging silence of each part. *)
Ltac silence :=
  repeat first
    [ apply silent_ret | apply silent_raise | apply silent_lift
    | apply silent_time_ms | apply silent_exists_ | apply silent_create
    | apply silent_count | apply silent_get | apply silent_index
    | apply silent_update
    | apply silent_log_call; reflexivity
    | apply silent_search; reflexivity
    | apply silent_llm_call; reflexivity
    | apply silent_bind; [|intros ?]
    | apply silent_try_except; [|intros ?]
    | match goal with
      | |- silent _ (match ?x with _ => _ end) => destruct x
      | |- silent _ (if ?b then _ else _) => destruct b
      end
    | assumption ].

Section SilentServices.

Variable C : Collaborators.

Lemma extract_keywords_no_summarize q :
  silent is_summarize (LLMService.extract_keywords C q).
Proof. unfold LLMService.extract_keywords. silence. Qed.

Lemma analyse_user_queries_no_summarize a b :
  silent is_summarize (LLMService.analyse_user_queries C a b).
Proof. unfold LLMService.analyse_user_queries. silence. Qed.

Lemma get_query_vector_silent p q :
  (forall t, p (EmbedCall t) = false) ->
  silent p (ElasticService.get_query_vector C q).
Proof.
  intros H. unfold ElasticService.get_query_vector.
  apply silent_bind; [apply silent_log_call, H|]. intros ?. silence.
Qed.

(** Building a query never sends one. *)
Lemma get_es_query_silent p rq total_docs :
  (forall t, p (EmbedCall t) = false) ->
  silent p (ElasticService.get_es_query C rq total_docs).
Proof.
  intros H. unfold ElasticService.get_es_query.
  apply silent_bind; [by apply get_query_vector_silent|]. intros ?. silence.
Qed.

Lemma get_ai_summary_cache_query_silent p rq :
  (forall t, p (EmbedCall t) = false) ->
  silent p (ElasticService.get_ai_summary_cache_query C rq).
Proof.
  intros H. unfold ElasticService.get_ai_summary_cache_query.
  apply silent_bind; [by apply get_query_vector_silent|]. intros ?. silence.
Qed.

Lemma get_document_by_id_silent p index id :
  silent p (ElasticService.get_document_by_id index id).
Proof.
  unfold ElasticService.get_document_by_id,
    ElasticService.raise_error_if_index_not_exists,
    ElasticService.check_index_exists.
  silence.
Qed.

Lemma elastic_search_no_summarize rq :
  silent is_summarize (ElasticService.elastic_search C rq).
Proof.
  unfold ElasticService.elastic_search,
    ElasticService.raise_error_if_index_not_exists,
    ElasticService.check_index_exists, ElasticService.get_total_count.
  apply silent_bind; [silence|]. intros _.
  apply silent_bind; [silence|]. intros total_docs.
  destruct (total_docs >? 0)%Z; [|silence].
  apply silent_bind.
  - destruct (startswith _ _).
    + by apply get_ai_summary_cache_query_silent.
    + by apply get_es_query_silent.
  - intros body. silence.
Qed.

Lemma get_documents_no_summarize rq :
  silent is_summarize (ElasticService.get_documents_from_search_insights C rq).
Proof.
  unfold ElasticService.get_documents_from_search_insights.
  apply silent_bind; [apply elastic_search_no_summarize|]. intros ?. silence.
Qed.

Lemma update_summary_cache_silent p key index d r cdsid name :
  silent p (ElasticService.update_summary_cache C key index d r cdsid name).
Proof.
  unfold ElasticService.update_summary_cache.
  destruct (reaction_transition _ _ _ _ _); silence;
    apply get_document_by_id_silent.
Qed.

Lemma cache_ai_summaries_no_summarize key topic uq s index cdsid name regions :
  silent is_summarize
    (ElasticService.cache_ai_summaries C key topic uq s index cdsid name regions).
Proof.
  unfold ElasticService.cache_ai_summaries,
    ElasticService.create_index_if_not_exists,
    ElasticService.check_index_exists,
    ElasticService.new_ai_summary_cache_document,
    ElasticService.get_query_vector.
  silence;
    first [ apply get_document_by_id_silent | apply update_summary_cache_silent ].
Qed.

(** Regeneration calls the summarizer exactly once. *)
Lemma get_insights_summary_summarizes q found :
  adds 1 is_summarize (DataService.get_insights_summary C q found).
Proof.
  unfold DataService.get_insights_summary, LLMService.summarize.
  apply adds_try_except; [by apply adds_llm_call|]. intros ?. silence.
Qed.

Lemma summarize_and_cache_summarizes q found rq :
  adds 1 is_summarize (DataService.summarize_and_cache C q found rq).
Proof.
  unfold DataService.summarize_and_cache.
  apply adds_bind; [apply get_insights_summary_summarizes|].
  intros ?. apply cache_ai_summaries_no_summarize.
Qed.

End SilentServices.

(* ===================================================================== *)
(** * Pagination *)
(* ===================================================================== *)

Section Pagination.

Variable C : Collaborators.

Lemma get_query_vector_runs (q : str) w v :
  to_embeddings C (sub_non_tag_space q) = Ok v ->
  ElasticService.get_query_vector C q w
  = (Ok (sub_non_tag_space q, v), logged (EmbedCall (sub_non_tag_space q)) w).
Proof.
  intros H. unfold ElasticService.get_query_vector, bind, log_call, lift, ret.
  cbn. by rewrite H.
Qed.

(** The three outcomes of query construction, once the query text is
    embedded. *)
Lemma get_es_query_cases rq total_docs w v :
  to_embeddings C (sub_non_tag_space (Req.query rq)) = Ok v ->
  ElasticService.get_es_query C rq total_docs w
  = (let from_param := ((Req.page_no rq - 1) * Req.page_size rq)%Z in
     if (from_param + Req.page_size rq >? 10000)%Z
     then Raise (InsightException 400
                   (s2u "Requested range exceeds the maximum allowed. Please adjust the page size."))
     else if (from_param >=? total_docs)%Z
     then Raise (InsightException 404 (s2u "No more documents to fetch"))
     else Ok (InsightsSearch
                (ElasticService.es_knn_query ElasticService.search_fields
                   (sub_non_tag_space (Req.query rq)) v
                   (extract_hashtags (Req.query rq))
                   ElasticService.hash_tag_fields rq)
                (Req.cdsid rq)
                (Z.min (Req.page_size rq) (total_docs - from_param)) from_param
                (ElasticService.sorted_by rq)),
     logged (EmbedCall (sub_non_tag_space (Req.query rq))) w).
Proof.
  intros H. unfold ElasticService.get_es_query.
  rewrite (bind_ok _ _ _ _ _ (get_query_vector_runs _ w v H)). cbv zeta.
  destruct (_ >? 10000)%Z; [reflexivity|].
  destruct (_ >=? total_docs)%Z; reflexivity.
Qed.

(** C3, counterexample: page 500 of size 24 starts at 11976, beyond the
    10 documents of the index, and is refused as a bad request (400), not
    as not found (404). *)
Lemma page_beyond_window_and_total_is_bad_request :
  ((500 - 1) * 24 >= 10)%Z
  /\ fst (ElasticService.get_es_query Demo.plain (Demo.request None None 500 24)
            10 (Demo.world None))
     = Raise (InsightException 400
                (s2u "Requested range exceeds the maximum allowed. Please adjust the page size.")).
Proof. split; [lia|reflexivity]. Qed.

(** C3, as amended: with from = (p-1)*s, and provided the embedding of the
    cleaned query text (which precedes both checks) succeeds, query
    construction fails with 400 if from + s > 10000; otherwise fails with
    404 if from >= total_docs; otherwise yields a query with that from and
    size min(s, total_docs - from).  It sends no query to the index, and
    when it fails on a non-empty insights index, [elastic_search] fails the
    same way with no query sent. *)
Theorem get_es_query_pagination rq total_docs w v :
  to_embeddings C (sub_non_tag_space (Req.query rq)) = Ok v ->
  let from_param := ((Req.page_no rq - 1) * Req.page_size rq)%Z in
  let r := ElasticService.get_es_query C rq total_docs w in
  search_calls (trace (snd r)) = search_calls (trace w)
  /\ ((from_param + Req.page_size rq > 10000)%Z ->
      exists msg, fst r = Raise (InsightException 400 msg))
  /\ ((from_param + Req.page_size rq <= 10000)%Z -> (from_param >= total_docs)%Z ->
      exists msg, fst r = Raise (InsightException 404 msg))
  /\ ((from_param + Req.page_size rq <= 10000)%Z -> (from_param < total_docs)%Z ->
      exists knn sort,
        fst r = Ok (InsightsSearch knn (Req.cdsid rq)
                      (Z.min (Req.page_size rq) (total_docs - from_param))
                      from_param sort))
  /\ (forall docs e,
        indices w !! Req.index rq = Some docs ->
        total_docs = Z.of_nat (size docs) -> (0 < total_docs)%Z ->
        startswith ElasticService.ai_summary_cache_prefix (Req.index rq) = false ->
        fst r = Raise e ->
        fst (ElasticService.elastic_search C rq w) = Raise e
        /\ search_calls (trace (snd (ElasticService.elastic_search C rq w)))
           = search_calls (trace w)).
Proof.
  intros Hv from_param r.
  assert (Hr : r = ElasticService.get_es_query C rq total_docs w) by reflexivity.
  rewrite (get_es_query_cases _ _ _ _ Hv) in Hr. cbv zeta in Hr.
  fold from_param in Hr.
  split; [|split; [|split; [|split]]].
  - apply (get_es_query_silent C is_search rq total_docs); reflexivity.
  - intros H. rewrite Hr.
    destruct (Z.gtb_spec (from_param + Req.page_size rq) 10000); [|lia]. eauto.
  - intros H1 H2. rewrite Hr.
    destruct (Z.gtb_spec (from_param + Req.page_size rq) 10000); [lia|].
    destruct (Z.geb_spec from_param total_docs); [|lia]. eauto.
  - intros H1 H2. rewrite Hr.
    destruct (Z.gtb_spec (from_param + Req.page_size rq) 10000); [lia|].
    destruct (Z.geb_spec from_param total_docs); [lia|]. eauto.
  - intros docs e Hix Htotal Hpos Hprefix He.
    assert (Hrun : ElasticService.elastic_search C rq w = (Raise e, snd r)).
    { unfold ElasticService.elastic_search.
      rewrite (bind_ok _ _ _ _ _ (raise_error_if_index_not_exists_found _ _ _ Hix)).
      rewrite (bind_ok _ _ _ _ _ (get_total_count_found _ _ _ Hix)).
      rewrite <- Htotal.
      destruct (Z.gtb_spec total_docs 0); [|lia].
      rewrite Hprefix.
      apply bind_raise. change (r = (Raise e, snd r)).
      clear Hr. destruct r as [res w']. cbn in He. by rewrite He. }
    rewrite Hrun. split; [reflexivity|]. cbn [snd].
    apply (get_es_query_silent C is_search rq total_docs); reflexivity.
Qed.

End Pagination.

(** C3, witness: page size 24 against ten documents; page 1 asks for the
    ten documents from offset 0, page 2 is not found. *)
Lemma get_es_query_pagination_witness :
  (exists knn sort,
     fst (ElasticService.get_es_query Demo.plain (Demo.request None None 1 24) 10
            (Demo.world None))
     = Ok (InsightsSearch knn (Some (s2u "AB1")) 10 0 sort))
  /\ (exists msg,
        fst (ElasticService.get_es_query Demo.plain (Demo.request None None 2 24)
               10 (Demo.world None))
        = Raise (InsightException 404 msg))
  /\ fst (ElasticService.elastic_search Demo.plain (Demo.request None None 2 24)
            (Demo.world None))
     = Raise (InsightException 404 (s2u "No more documents to fetch"))
  /\ search_calls
       (trace (snd (ElasticService.elastic_search Demo.plain
                      (Demo.request None None 2 24) (Demo.world None))))
     = 0%nat.
Proof.
  pose proof (get_es_query_pagination Demo.plain (Demo.request None None 1 24) 10
                (Demo.world None) [] eq_refl) as (_ & _ & _ & H1 & _).
  pose proof (get_es_query_pagination Demo.plain (Demo.request None None 2 24) 10
                (Demo.world None) [] eq_refl) as (_ & _ & H2 & _ & H3).
  split; [|split].
  - apply H1; cbn; lia.
  - apply H2; cbn; lia.
  - apply (H3 Demo.ten_insights); try reflexivity.
Defined.

(* ===================================================================== *)
(** * The word "yes" *)
(* ===================================================================== *)

Section WordYes.

Variable U : UnicodeTables.

Implicit Types (s pre post : str) (c y e z : char) (prev : option char).

Lemma space_not_tag_char c : is_space c = true -> is_tag_char c = false.
Proof.
  intros Hs. apply not_true_is_false. intros Ht.
  unfold is_space, is_tag_char, in_range in *.
  repeat rewrite ?orb_true_iff, ?andb_true_iff, ?N.leb_le, ?N.eqb_eq in Hs.
  repeat rewrite ?orb_true_iff, ?andb_true_iff, ?N.leb_le, ?N.eqb_eq in Ht.
  lia.
Qed.

Lemma space_not_word c : is_space c = true -> Re.is_word U c = false.
Proof.
  intros Hs. unfold Re.is_word. destruct (c <? 128)%N.
  - by apply space_not_tag_char.
  - by apply uni_alnum_space.
Qed.

Lemma ci_y_word y : Re.ci_y y = true -> Re.is_word U y = true.
Proof.
  unfold Re.ci_y. rewrite orb_true_iff, !N.eqb_eq. by intros [-> | ->].
Qed.

Lemma ci_s_word z : Re.ci_s z = true -> Re.is_word U z = true.
Proof.
  unfold Re.ci_s. rewrite !orb_true_iff, !N.eqb_eq. intros [[-> | ->] | ->].
  - reflexivity.
  - reflexivity.
  - unfold Re.is_word. cbn. apply uni_alnum_long_s.
Qed.

Lemma ci_y_not_space y : Re.ci_y y = true -> is_space y = false.
Proof.
  unfold Re.ci_y. rewrite orb_true_iff, !N.eqb_eq. by intros [-> | ->].
Qed.

Lemma ci_s_not_space z : Re.ci_s z = true -> is_space z = false.
Proof.
  unfold Re.ci_s. rewrite !orb_true_iff, !N.eqb_eq. by intros [[-> | ->] | ->].
Qed.

(** The character before a position: the last of the prefix, or what
    precedes the prefix. *)
Lemma last_cons_default {A} (a : A) (l : list A) (d : A) :
  List.last (a :: l) d = List.last l a.
Proof.
  revert a d. induction l as [|x l IH]; intros a d; [reflexivity|].
  change (List.last (x :: l) d = List.last (x :: l) a).
  by rewrite !IH.
Qed.

Lemma last_some_cons c pre prev :
  List.last (List.map Some (c :: pre)) prev = List.last (List.map Some pre) (Some c).
Proof. apply last_cons_default. Qed.

Lemma match_yes_at_spec prev s :
  Re.match_yes_at U prev s = true <->
  exists y e z post,
    s = y :: e :: z :: post
    /\ Re.ci_y y = true /\ Re.ci_e e = true /\ Re.ci_s z = true
    /\ Re.word_opt U prev = false /\ Re.word_opt U (head post) = false.
Proof.
  unfold Re.match_yes_at. split.
  - destruct s as [|y [|e [|z post]]]; try discriminate.
    rewrite !andb_true_iff. intros ((((Hb & Hy) & He) & Hz) & Ha).
    exists y, e, z, post. repeat split; try done.
    + unfold Re.boundary in Hb. cbn in Hb. rewrite (ci_y_word _ Hy) in Hb.
      by destruct (Re.word_opt U prev).
    + unfold Re.boundary in Ha. cbn in Ha. rewrite (ci_s_word _ Hz) in Ha.
      by destruct (Re.word_opt U (head post)).
  - intros (y & e & z & post & -> & Hy & He & Hz & Hp & Hn).
    rewrite Hy, He, Hz. unfold Re.boundary. cbn.
    rewrite (ci_y_word _ Hy), (ci_s_word _ Hz), Hp, Hn. reflexivity.
Qed.

(** The scan finds a match exactly where one exists. *)
Lemma search_yes_from_spec prev s :
  Re.search_yes_from U prev s = true <->
  exists pre y e z post,
    s = pre ++ y :: e :: z :: post
    /\ Re.ci_y y = true /\ Re.ci_e e = true /\ Re.ci_s z = true
    /\ Re.word_opt U (List.last (List.map Some pre) prev) = false
    /\ Re.word_opt U (head post) = false.
Proof.
  revert prev. induction s as [|c rest IH]; intros prev.
  - split; [discriminate|]. intros (pre & y & e & z & post & H & _).
    by destruct pre.
  - cbn [Re.search_yes_from]. rewrite orb_true_iff, match_yes_at_spec, IH. split.
    + intros [(y & e & z & post & H) | (pre & y & e & z & post & -> & H)].
      * exists [], y, e, z, post. exact H.
      * exists (c :: pre), y, e, z, post. rewrite last_some_cons.
        split; [reflexivity|exact H].
    + intros (pre & y & e & z & post & Hs & H).
      destruct pre as [|c' pre].
      * left. exists y, e, z, post. split; [exact Hs|exact H].
      * right. injection Hs as -> ->. exists pre, y, e, z, post.
        rewrite last_some_cons in H. split; [reflexivity|exact H].
Qed.

Lemma not_preceded_iff pre :
  (pre = [] \/ exists p c, pre = p ++ [c] /\ Re.is_word U c = false) <->
  Re.word_opt U (List.last (List.map Some pre) None) = false.
Proof.
  destruct pre as [|x pre _] using rev_ind.
  - cbn. tauto.
  - rewrite List.map_app. cbn [List.map]. rewrite List.last_last. cbn. split.
    + intros [H | (p & c & H & Hc)]; [by destruct pre|].
      apply app_inj_tail in H as [_ ->]. exact Hc.
    + intros H. right. by exists pre, x.
Qed.

Lemma not_followed_iff post :
  (post = [] \/ exists c p, post = c :: p /\ Re.is_word U c = false) <->
  Re.word_opt U (head post) = false.
Proof.
  destruct post as [|x post]; cbn.
  - tauto.
  - split.
    + intros [H | (c & p & H & Hc)]; [discriminate|]. by injection H as -> ->.
    + intros H. right. by exists x, post.
Qed.

(** [re.search(r'\byes\b', s, re.IGNORECASE)] finds a match exactly when
    [s] contains the standalone word. *)
Lemma search_yes_spec s :
  Re.search_yes U s = true <-> contains_standalone_yes U s.
Proof.
  unfold Re.search_yes, contains_standalone_yes. rewrite search_yes_from_spec.
  split; intros (pre & y & e & z & post & Hs & Hy & He & Hz & Hp & Hn);
    exists pre, y, e, z, post; repeat split; try done.
  - by apply not_preceded_iff.
  - by apply not_followed_iff.
  - by apply not_preceded_iff.
  - by apply not_followed_iff.
Qed.

(** Whitespace in front of or behind a string neither makes nor breaks a
    standalone word. *)
Lemma yes_cons_space c s :
  is_space c = true ->
  contains_standalone_yes U (c :: s) <-> contains_standalone_yes U s.
Proof.
  intros Hc. split.
  - intros (pre & y & e & z & post & Hs & Hy & He & Hz & Hp & Hn).
    destruct pre as [|c' pre].
    + injection Hs as -> _. rewrite (ci_y_not_space _ Hy) in Hc. discriminate.
    + injection Hs as -> ->. exists pre, y, e, z, post.
      repeat split; try done.
      destruct Hp as [Hp | (p & x & Hp & Hx)]; [discriminate|].
      destruct p as [|c0 p].
      * left. by destruct pre.
      * right. injection Hp as -> ->. by exists p, x.
  - intros (pre & y & e & z & post & -> & Hy & He & Hz & Hp & Hn).
    exists (c :: pre), y, e, z, post. repeat split; try done.
    right. destruct Hp as [-> | (p & x & -> & Hx)].
    + exists [], c. split; [reflexivity|]. by apply space_not_word.
    + by exists (c :: p), x.
Qed.

Lemma yes_snoc_space c s :
  is_space c = true ->
  contains_standalone_yes U (s ++ [c]) <-> contains_standalone_yes U s.
Proof.
  intros Hc. split.
  - intros (pre & y & e & z & post & Hs & Hy & He & Hz & Hp & Hn).
    destruct post as [|x post _] using rev_ind.
    + exfalso.
      change (pre ++ [y; e; z]) with (pre ++ [y; e] ++ [z]) in Hs.
      rewrite !app_assoc in Hs. apply app_inj_tail in Hs as [_ ->].
      rewrite (ci_s_not_space _ Hz) in Hc. discriminate.
    + change (pre ++ y :: e :: z :: post ++ [x])
        with (pre ++ (y :: e :: z :: post) ++ [x]) in Hs.
      rewrite app_assoc in Hs. apply app_inj_tail in Hs as [-> ->].
      exists pre, y, e, z, post. repeat split; try done.
      destruct Hn as [Hn | (c0 & p & Hn & Hc0)]; [by destruct post|].
      destruct post as [|c1 post]; [by left|].
      right. injection Hn as -> _. by exists c0, post.
  - intros (pre & y & e & z & post & -> & Hy & He & Hz & Hp & Hn).
    exists pre, y, e, z, (post ++ [c]). rewrite <- app_assoc.
    repeat split; try done.
    right. destruct Hn as [-> | (x & p & -> & Hx)].
    + exists c, []. split; [reflexivity|]. by apply space_not_word.
    + by exists x, (p ++ [c]).
Qed.

Lemma lstrip_decompose s :
  exists ws, s = ws ++ lstrip s /\ Forall (fun c => is_space c = true) ws.
Proof.
  induction s as [|c s (ws & Hs & Hws)]; [by exists []|].
  cbn. destruct (is_space c) eqn:Hc.
  - exists (c :: ws). split; [by rewrite Hs at 1|]. by constructor.
  - by exists [].
Qed.

Lemma yes_lstrip s :
  contains_standalone_yes U (lstrip s) <-> contains_standalone_yes U s.
Proof.
  destruct (lstrip_decompose s) as (ws & Hs & Hws).
  rewrite Hs at 2. clear Hs.
  induction Hws as [|c ws Hc _ IH]; [reflexivity|].
  cbn. by rewrite yes_cons_space.
Qed.

Lemma yes_rstrip s :
  contains_standalone_yes U (rstrip s) <-> contains_standalone_yes U s.
Proof.
  unfold rstrip. destruct (lstrip_decompose (rev s)) as (ws & Hs & Hws).
  apply (f_equal (@rev N)) in Hs. rewrite rev_involutive, rev_app_distr in Hs.
  rewrite Hs at 2. clear Hs.
  generalize (rev (lstrip (rev s))). intros t.
  induction Hws as [|c ws Hc _ IH]; [by rewrite app_nil_r|].
  cbn. rewrite app_assoc, yes_snoc_space by done. exact IH.
Qed.

Lemma yes_strip s :
  contains_standalone_yes U (strip s) <-> contains_standalone_yes U s.
Proof. unfold strip. by rewrite yes_rstrip, yes_lstrip. Qed.

Lemma yes_not_empty : ~ contains_standalone_yes U [].
Proof. intros (pre & y & e & z & post & H & _). by destruct pre. Qed.

(** The test of [get_ai_summary_from_cache] on the reply of
    [analyse_user_queries] holds exactly when the model's answer contains
    the standalone word. *)
Lemma affirmative_spec (content : option str) :
  DataService.affirmative U (if truthy_opt content then content else None) = true
  <-> answer_says_yes U content.
Proof.
  destruct content as [[|c s]|];
    unfold DataService.affirmative, truthy_opt, truthy, answer_says_yes;
    cbv iota.
  - split; [discriminate|]. intros H. destruct (yes_not_empty H).
  - rewrite andb_true_l, search_yes_spec. apply yes_strip.
  - split; [discriminate|done].
Qed.

End WordYes.

(* ===================================================================== *)
(** * Looking a summary up in the cache *)
(* ===================================================================== *)

Section CacheLookup.

Variable C : Collaborators.

Lemma run_eq {A} (m : M A) w a : fst (m w) = a -> m w = (a, snd (m w)).
Proof. intros <-. by destruct (m w). Qed.

Lemma analyse_user_queries_runs a b w content :
  connect_llm C (PAnalyse a b) = Ok content ->
  LLMService.analyse_user_queries C a b w
  = (Ok (if truthy_opt content then content else None),
     logged (LlmCall (PAnalyse a b)) w).
Proof.
  intros H. unfold LLMService.analyse_user_queries, LLMService.call, bind,
    log_call, lift. cbn. rewrite H. by destruct (truthy_opt content).
Qed.

(** Regeneration, with the [except] clauses around it, calls the
    summarizer. *)
Lemma regeneration_summarizes q rq found w :
  (summarize_calls
     (trace (snd (try_except (DataService.summarize_and_cache C q found rq)
                    (DataService.except_clauses C q rq found) w)))
   > summarize_calls (trace w))%nat.
Proof.
  pose proof (summarize_and_cache_summarizes C q found rq w) as H1.
  unfold try_except.
  destruct (DataService.summarize_and_cache C q found rq w) as [[a|e] w'] eqn:E;
    cbn [snd] in *; unfold summarize_calls.
  - lia.
  - destruct e; cbn [DataService.except_clauses]; try (cbn [raise snd]; lia).
    pose proof (summarize_and_cache_summarizes C q found rq w') as H2. lia.
Qed.

(** The lookup up to the point where a candidate is at hand. *)
Lemma get_ai_summary_from_cache_candidate
    (q : str) (rq : Req.t) (found : list Hit) (w : World)
    (docs : gmap str StoredDoc) (response : Documents) (w1 : World)
    (hit : Hit) (rest : list Hit) (d : Cache.Doc) :
  indices w !! Req.index rq = Some docs ->
  ElasticService.get_documents_from_search_insights C rq w
  = (Ok (Some response), w1) ->
  (total_search_count response > 0)%Z ->
  DataService.candidates rq response = hit :: rest ->
  hit_source hit = SCache d ->
  DataService.get_ai_summary_from_cache C q rq found w
  = try_except
      (let* llm_response :=
         LLMService.analyse_user_queries C q (Cache.user_query d) in
       if DataService.affirmative (unicode C) llm_response
       then ret (mkAiSummaryCache (SCache d))
       else DataService.summarize_and_cache C q found rq)
      (DataService.except_clauses C q rq found) w1.
Proof.
  intros Hix Hdocs Htotal Hcand Hsrc.
  unfold DataService.get_ai_summary_from_cache.
  rewrite (bind_ok _ _ _ _ _ (check_index_exists_found _ _ _ Hix)). cbn [negb].
  unfold try_except at 1. unfold bind at 1. rewrite Hdocs.
  destruct (Z.gtb_spec (total_search_count response) 0); [|lia].
  rewrite Hcand. cbv zeta. rewrite Hsrc. reflexivity.
Qed.

(** C9: when the lookup has found a candidate and the model has answered,
    the candidate's summary is returned, untouched and without any call of
    the summarizer, if the answer contains the standalone word "yes" (case
    ignored); otherwise the summary is regenerated, which calls the
    summarizer.  The answers "no", "unsure", the empty answer and no
    answer do not contain the word. *)
Theorem summary_reused_iff_answer_says_yes
    (q : str) (rq : Req.t) (found : list Hit) (w : World)
    (docs : gmap str StoredDoc) (response : Documents) (w1 : World)
    (hit : Hit) (rest : list Hit) (d : Cache.Doc) (answer : option str) :
  indices w !! Req.index rq = Some docs ->
  ElasticService.get_documents_from_search_insights C rq w
  = (Ok (Some response), w1) ->
  (total_search_count response > 0)%Z ->
  DataService.candidates rq response = hit :: rest ->
  hit_source hit = SCache d ->
  connect_llm C (PAnalyse q (Cache.user_query d)) = Ok answer ->
  let r := DataService.get_ai_summary_from_cache C q rq found w in
  let asked := logged (LlmCall (PAnalyse q (Cache.user_query d))) w1 in
  (answer_says_yes (unicode C) answer ->
     r = (Ok (mkAiSummaryCache (SCache d)), asked))
  /\ (~ answer_says_yes (unicode C) answer ->
        r = try_except (DataService.summarize_and_cache C q found rq)
              (DataService.except_clauses C q rq found) asked)
  /\ (answer_says_yes (unicode C) answer <->
        summarize_calls (trace (snd r)) = summarize_calls (trace w))
  /\ ~ answer_says_yes (unicode C) (Some (s2u "no"))
  /\ ~ answer_says_yes (unicode C) (Some (s2u "unsure"))
  /\ ~ answer_says_yes (unicode C) (Some [])
  /\ ~ answer_says_yes (unicode C) None.
Proof.
  intros Hix Hdocs Htotal Hcand Hsrc Hllm r asked.
  assert (Hr : r = try_except
                     (if DataService.affirmative (unicode C)
                           (if truthy_opt answer then answer else None)
                      then ret (mkAiSummaryCache (SCache d))
                      else DataService.summarize_and_cache C q found rq)
                     (DataService.except_clauses C q rq found) asked).
  { unfold r.
    rewrite (get_ai_summary_from_cache_candidate _ _ _ _ _ _ _ _ _ _
               Hix Hdocs Htotal Hcand Hsrc).
    unfold try_except.
    by rewrite (bind_ok _ _ _ _ _ (analyse_user_queries_runs _ _ w1 _ Hllm)). }
  assert (Hw1 : summarize_calls (trace asked) = summarize_calls (trace w)).
  { unfold asked, logged, summarize_calls. cbn [trace].
    rewrite calls_snoc. cbn.
    pose proof (get_documents_no_summarize C rq w) as H.
    rewrite Hdocs in H. exact H. }
  pose proof (affirmative_spec (unicode C) answer) as Hspec.
  assert (Hyes : answer_says_yes (unicode C) answer ->
                 r = (Ok (mkAiSummaryCache (SCache d)), asked)).
  { intros H. apply Hspec in H. rewrite Hr, H. reflexivity. }
  assert (Hno : ~ answer_says_yes (unicode C) answer ->
                r = try_except (DataService.summarize_and_cache C q found rq)
                      (DataService.except_clauses C q rq found) asked).
  { intros H. rewrite Hr.
    destruct (DataService.affirmative _ _); [|reflexivity].
    exfalso. apply H, Hspec. reflexivity. }
  split; [exact Hyes|]. split; [exact Hno|]. split; [split|].
  - intros H. rewrite (Hyes H). exact Hw1.
  - intros Hcount.
    destruct (DataService.affirmative (unicode C)
                (if truthy_opt answer then answer else None)) eqn:E.
    + by apply Hspec.
    + assert (Hn : ~ answer_says_yes (unicode C) answer).
      { intros H. apply Hspec in H. congruence. }
      rewrite (Hno Hn) in Hcount.
      pose proof (regeneration_summarizes q rq found asked) as Hgt. lia.
  - split; [|split; [|split]].
    + intros Hyn. apply search_yes_spec in Hyn. vm_compute in Hyn. discriminate.
    + intros Hyn. apply search_yes_spec in Hyn. vm_compute in Hyn. discriminate.
    + apply yes_not_empty.
    + intros Hyn. exact Hyn.
Qed.

(** Every not-found condition met before candidates are looked at leads
    to regeneration: no cache index; an empty cache index; no match; the
    store answering that the index is gone. *)
Lemma not_found_leads_to_regeneration
    (q : str) (rq : Req.t) (found : list Hit) (w : World) :
  (indices w !! Req.index rq = None ->
   DataService.get_ai_summary_from_cache C q rq found w
   = DataService.summarize_and_cache C q found rq w)
  /\ (forall (docs : gmap str StoredDoc) (w1 : World),
        indices w !! Req.index rq = Some docs ->
        ElasticService.get_documents_from_search_insights C rq w = (Ok None, w1) ->
        DataService.get_ai_summary_from_cache C q rq found w
        = try_except (DataService.summarize_and_cache C q found rq)
            (DataService.except_clauses C q rq found) w1)
  /\ (forall (docs : gmap str StoredDoc) (response : Documents) (w1 : World),
        indices w !! Req.index rq = Some docs ->
        ElasticService.get_documents_from_search_insights C rq w
        = (Ok (Some response), w1) ->
        (total_search_count response <= 0)%Z ->
        DataService.get_ai_summary_from_cache C q rq found w
        = try_except (DataService.summarize_and_cache C q found rq)
            (DataService.except_clauses C q rq found) w1)
  /\ (forall (docs : gmap str StoredDoc) (info : str) (w1 : World),
        indices w !! Req.index rq = Some docs ->
        ElasticService.get_documents_from_search_insights C rq w
        = (Raise (NotFoundError info), w1) ->
        DataService.get_ai_summary_from_cache C q rq found w
        = DataService.summarize_and_cache C q found rq w1).
Proof.
  repeat split.
  - intros Hix. unfold DataService.get_ai_summary_from_cache.
    by rewrite (bind_ok _ _ _ _ _ (check_index_exists_missing _ _ Hix)).
  - intros docs w1 Hix Hdocs. unfold DataService.get_ai_summary_from_cache.
    rewrite (bind_ok _ _ _ _ _ (check_index_exists_found _ _ _ Hix)). cbn [negb].
    unfold try_except at 1. unfold bind at 1. by rewrite Hdocs.
  - intros docs response w1 Hix Hdocs Htotal.
    unfold DataService.get_ai_summary_from_cache.
    rewrite (bind_ok _ _ _ _ _ (check_index_exists_found _ _ _ Hix)). cbn [negb].
    unfold try_except at 1. unfold bind at 1. rewrite Hdocs.
    by destruct (Z.gtb_spec (total_search_count response) 0); [lia|].
  - intros docs info w1 Hix Hdocs. unfold DataService.get_ai_summary_from_cache.
    rewrite (bind_ok _ _ _ _ _ (check_index_exists_found _ _ _ Hix)). cbn [negb].
    by rewrite (try_except_raise _ _ _ _ _ (bind_raise _ _ _ _ _ Hdocs)).
Qed.

(** When the restriction to generic entries leaves no candidate, the
    lookup does not regenerate: indexing the empty list raises, and the
    error leaves as status 500. *)
Lemma no_candidate_left_is_fatal
    (q : str) (rq : Req.t) (found : list Hit) (w : World)
    (docs : gmap str StoredDoc) (response : Documents) (w1 : World) :
  indices w !! Req.index rq = Some docs ->
  ElasticService.get_documents_from_search_insights C rq w
  = (Ok (Some response), w1) ->
  (total_search_count response > 0)%Z ->
  DataService.candidates rq response = [] ->
  DataService.get_ai_summary_from_cache C q rq found w
  = (Raise (AppException 500 (StrOf IndexError)), w1).
Proof.
  intros Hix Hdocs Htotal Hcand. unfold DataService.get_ai_summary_from_cache.
  rewrite (bind_ok _ _ _ _ _ (check_index_exists_found _ _ _ Hix)). cbn [negb].
  unfold try_except at 1. unfold bind at 1. rewrite Hdocs.
  destruct (Z.gtb_spec (total_search_count response) 0); [|lia].
  by rewrite Hcand.
Qed.

End CacheLookup.

(** C4, at the failing input: a search without region filter finds, in the
    cache, only a summary scoped to region NA; the lookup, and with it the
    whole search, ends in an error of status 500 instead of regenerating
    the summary. *)
Theorem regional_candidate_only_is_fatal :
  fst (DataService.get_ai_summary_from_cache
         (Demo.with_candidate (Some [s2u "NA"]) None) (s2u "blue #cruise feature")
         (Req.set_index Demo.cache_index (Demo.request None (Some []) 1 24))
         [Demo.hit "a" (20 # 1)]
         (Demo.world (Some (Demo.cache_docs (Some [s2u "NA"])))))
  = Raise (AppException 500 (StrOf IndexError))
  /\ fst (DataService.search_insights_v2
            (Demo.with_candidate (Some [s2u "NA"]) None)
            (Demo.request None (Some []) 1 24)
            (Demo.world (Some (Demo.cache_docs (Some [s2u "NA"])))))
     = Raise (AppException 500 (StrOf IndexError)).
Proof. split; vm_compute; reflexivity. Qed.

(** C9, witness: the cached generic summary is a candidate and the model
    answers "Yes, same." *)
Lemma summary_reused_iff_answer_says_yes_witness :
  fst (DataService.get_ai_summary_from_cache
         (Demo.with_candidate (Some []) (Some (s2u "Yes, same.")))
         (s2u "blue #cruise feature")
         (Req.set_index Demo.cache_index (Demo.request None None 1 24))
         [Demo.hit "a" (20 # 1)] (Demo.world (Some (Demo.cache_docs (Some [])))))
  = Ok (mkAiSummaryCache (SCache (Demo.cached (Some [])))).
Proof.
  pose proof (summary_reused_iff_answer_says_yes
                (Demo.with_candidate (Some []) (Some (s2u "Yes, same.")))
                (s2u "blue #cruise feature")
                (Req.set_index Demo.cache_index (Demo.request None None 1 24))
                [Demo.hit "a" (20 # 1)] (Demo.world (Some (Demo.cache_docs (Some []))))
                (Demo.cache_docs (Some []))
                (mkDocuments [Demo.cache_hit (Some [])] 1)
                (snd (ElasticService.get_documents_from_search_insights
                        (Demo.with_candidate (Some []) (Some (s2u "Yes, same.")))
                        (Req.set_index Demo.cache_index
                           (Demo.request None None 1 24))
                        (Demo.world (Some (Demo.cache_docs (Some []))))))
                (Demo.cache_hit (Some [])) []
                (Demo.cached (Some [])) (Some (s2u "Yes, same."))) as H.
  destruct H as (Hyes & _).
  - reflexivity.
  - apply run_eq. vm_compute. reflexivity.
  - reflexivity.
  - reflexivity.
  - reflexivity.
  - reflexivity.
  - rewrite Hyes; [reflexivity|].
    apply search_yes_spec. vm_compute. reflexivity.
Defined.

(* ===================================================================== *)
(** * Searching *)
(* ===================================================================== *)

Section Searching.

Variable C : Collaborators.

Lemma bind_ok_inv {A B} (m : M A) (k : A -> M B) w b w' :
  bind m k w = (Ok b, w') ->
  exists a w1, m w = (Ok a, w1) /\ k a w1 = (Ok b, w').
Proof.
  unfold bind. destruct (m w) as [[a|e] w1]; [|discriminate]. eauto.
Qed.

Lemma rewrite_query_index kq rq :
  Req.index (DataService.rewrite_query kq rq) = Req.index rq.
Proof. by destruct kq as [[|? ?]|]. Qed.

Lemma rebuild_hits (l : list Hit) :
  List.map (fun hit => mkHit (hit_id hit) (hit_score hit) (hit_source hit)
                         (highlight hit)) l = l.
Proof.
  induction l as [|[? ? ? ?] l IH]; [reflexivity|]. cbn. by rewrite IH.
Qed.

(** A search that returns documents returns what the index ranked. *)
Lemma get_documents_found (rq : Req.t) (w : World) (response : Documents)
    (w1 : World) :
  ElasticService.get_documents_from_search_insights C rq w
  = (Ok (Some response), w1) ->
  exists (docs : gmap str StoredDoc) body,
    es_search C (Req.index rq) docs body
    = Ok (results response, total_search_count response).
Proof.
  unfold ElasticService.get_documents_from_search_insights. intros H.
  apply bind_ok_inv in H as (result & w2 & Hes & H).
  destruct result as [[hs tot]|]; [|discriminate].
  injection H as <- <-. cbn [results total_search_count hits total_hits].
  rewrite rebuild_hits.
  unfold ElasticService.elastic_search in Hes.
  apply bind_ok_inv in Hes as (_ & wa & _ & Hes).
  apply bind_ok_inv in Hes as (total_docs & wb & _ & Hes).
  destruct (total_docs >? 0)%Z; [|discriminate].
  apply bind_ok_inv in Hes as (body & wc & _ & Hes).
  apply bind_ok_inv in Hes as ([hits' total'] & wd & Hsearch & Hes).
  injection Hes as -> -> _.
  unfold Es.search in Hsearch.
  apply bind_ok_inv in Hsearch as (_ & we & _ & Hsearch).
  destruct (indices we !! Req.index rq) as [docs|]; [|discriminate].
  exists docs, body. by injection Hsearch as -> _.
Qed.

(** C2: the list a search returns is the list of hits ranked by the index
    with every hit scored below 14 removed, and [total_records] is the
    total the index reported for the query, whatever the length of the
    list. *)
Theorem search_results_respect_cutoff (rq : Req.t) (w : World)
    (resp : SearchResponse) (w' : World) :
  DataService.search_insights_v2 C rq w = (Ok resp, w') ->
  exists (docs : gmap str StoredDoc) body hits total,
    es_search C (Req.index rq) docs body = Ok (hits, total)
    /\ insights (search_results resp)
       = List.filter (fun h => Qle_bool (14 # 1) (hit_score h)) hits
    /\ total_records (search_results resp) = total
    /\ Forall (fun h => (14 # 1 <= hit_score h)%Q) (insights (search_results resp))
    /\ (forall h, In h hits -> (hit_score h < 14 # 1)%Q ->
          ~ In h (insights (search_results resp))).
Proof.
  unfold DataService.search_insights_v2. intros H.
  apply bind_ok_inv in H as (kq & w1 & _ & H).
  apply bind_ok_inv in H as (response & w2 & Hdocs & H).
  apply bind_ok_inv in H as (r & w3 & Hr & H).
  destruct response as [response|]; [|discriminate].
  injection Hr as <- <-.
  apply get_documents_found in Hdocs as (docs & body & Hsearch).
  rewrite rewrite_query_index in Hsearch.
  apply bind_ok_inv in H as (c & w4 & _ & H).
  assert (Hresp : search_results resp
                  = mkInsightsDict
                      (List.filter
                         (fun h => Qle_bool DataService.score_cutoff (hit_score h))
                         (results response))
                      (total_search_count response)).
  { destruct (Req.page_no _ =? 1)%Z; [destruct c; [|discriminate]|];
      by injection H as <- _. }
  exists docs, body, (results response), (total_search_count response).
  rewrite Hresp. cbn [insights total_records].
  split; [exact Hsearch|]. split; [reflexivity|]. split; [reflexivity|]. split.
  - apply List.Forall_forall. intros h Hh. apply List.filter_In in Hh as [_ Hh].
    by apply Qle_bool_iff.
  - intros h _ Hlt Hh. apply List.filter_In in Hh as [_ Hh].
    apply Qle_bool_iff in Hh. by apply (Qlt_not_le _ _ Hlt).
Qed.



(** On an index without documents no query is sent, and the search ends in
    a key error when it reads the results that are not there. *)
Lemma search_on_empty_index_raises_key_error (rq : Req.t) (w : World)
    (kq : option str) (w1 : World) (docs : gmap str StoredDoc) :
  LLMService.extract_keywords C (Req.query rq) w = (Ok kq, w1) ->
  indices w1 !! Req.index rq = Some docs ->
  size docs = 0%nat ->
  DataService.search_insights_v2 C rq w = (Raise (KeyError (s2u "results")), w1).
Proof.
  intros Hkq Hix Hsize. unfold DataService.search_insights_v2.
  rewrite (bind_ok _ _ _ _ _ Hkq).
  assert (Hdocs : ElasticService.get_documents_from_search_insights C
                    (DataService.rewrite_query kq rq) w1 = (Ok None, w1)).
  { assert (Hes : ElasticService.elastic_search C
                      (DataService.rewrite_query kq rq) w1 = (Ok None, w1)).
    { unfold ElasticService.elastic_search. rewrite rewrite_query_index.
      rewrite (bind_ok _ _ _ _ _ (raise_error_if_index_not_exists_found _ _ _ Hix)).
      rewrite (bind_ok _ _ _ _ _ (get_total_count_found _ _ _ Hix)).
      by rewrite Hsize. }
    unfold ElasticService.get_documents_from_search_insights.
    by rewrite (bind_ok _ _ _ _ _ Hes). }
  by rewrite (bind_ok _ _ _ _ _ Hdocs).
Qed.

End Searching.


(** The search of an index that holds no document fails. *)
Lemma search_on_empty_index_example :
  fst (DataService.search_insights_v2 Demo.plain (Demo.request None None 1 24)
         Demo.empty_world)
  = Raise (KeyError (s2u "results")).
Proof. vm_compute. reflexivity. Qed.


(** C2, witness: five hits scored 20, 15, 14, 13.9 and 2, of a total of
    five; three are returned and [total_records] is five. *)
Lemma search_results_respect_cutoff_witness :
  exists resp,
    fst (DataService.search_insights_v2 Demo.five_hits
           (Demo.request None None 1 24) (Demo.world None)) = Ok resp
    /\ List.map hit_score (insights (search_results resp))
       = [20 # 1; 15 # 1; 14 # 1]
    /\ total_records (search_results resp) = 5%Z
    /\ Forall (fun h => (14 # 1 <= hit_score h)%Q) (insights (search_results resp)).
Proof.
  assert (Hrun : exists resp,
             fst (DataService.search_insights_v2 Demo.five_hits
                    (Demo.request None None 1 24) (Demo.world None)) = Ok resp
             /\ List.map hit_score (insights (search_results resp))
                = [20 # 1; 15 # 1; 14 # 1]
             /\ total_records (search_results resp) = 5%Z).
  { vm_compute. eexists. repeat split. }
  destruct Hrun as (resp & Hresp & Hscores & Htotal).
  destruct (search_results_respect_cutoff Demo.five_hits
              (Demo.request None None 1 24) (Demo.world None) resp
              (snd (DataService.search_insights_v2 Demo.five_hits
                      (Demo.request None None 1 24) (Demo.world None))))
    as (docs & body & hits & total & _ & _ & _ & Hall & _).
  - apply run_eq. exact Hresp.
  - exists resp. split; [exact Hresp|]. split; [exact Hscores|].
    split; [exact Htotal|exact Hall].
Defined.

(* ===================================================================== *)
(** * More on reactions *)
(* ===================================================================== *)

Section MoreReactions.

Implicit Types (d : Cache.Doc) (c : str) (l : list str).

Lemma length_list_remove c l :
  c ∈ l -> length (list_remove c l) = pred (length l).
Proof.
  induction l as [|y l IH]; [by intros H; apply elem_of_nil in H|].
  cbn. case_bool_decide as E; [reflexivity|].
  intros H. apply elem_of_cons in H as [->|H]; [done|].
  cbn. rewrite (IH H). destruct l; [by apply elem_of_nil in H|reflexivity].
Qed.

Lemma list_remove_snoc c l : c ∉ l -> list_remove c (l ++ [c]) = l.
Proof.
  induction l as [|y l IH]; cbn; intros H.
  - by rewrite bool_decide_eq_true_2.
  - apply not_elem_of_cons in H as [Hne H].
    rewrite bool_decide_eq_false_2 by done. by rewrite IH.
Qed.

Lemma counts_after_switch (n m : Z) (A B : list str) c :
  n = Z.of_nat (length A) -> m = Z.of_nat (length B) ->
  (if py_in c A then n else n + 1)%Z
  = Z.of_nat (length (if py_in c A then A else A ++ [c]))
  /\ (if py_in c B then m - 1 else m)%Z
     = Z.of_nat (length (if py_in c B then list_remove c B else B)).
Proof.
  intros -> ->. split.
  - destruct (py_in c A); [reflexivity|]. rewrite List.length_app. cbn. lia.
  - destruct (py_in c B) eqn:E; [|reflexivity].
    apply py_in_true in E. rewrite (length_list_remove _ _ E).
    destruct B; [by apply elem_of_nil in E|]. cbn. lia.
Qed.

(** X1: a document whose counters equal the lengths of its membership
    lists keeps them equal under every reaction the transition accepts,
    with or without reactor identity and whether or not the lists hold
    duplicates. *)
Theorem reactions_keep_counts_matching U r cdsid name d d' :
  counts_match d ->
  reaction_transition U r cdsid name d = Some d' ->
  counts_match d'.
Proof.
  intros [HL HD] Hr.
  assert (Hr' := Hr). unfold reaction_transition in Hr'.
  destruct (str_eqb r (s2u "like")) eqn:E1;
    [|destruct (str_eqb r (s2u "dislike")) eqn:E2;
      [|destruct (str_eqb r (s2u "reload")) eqn:E3; [|discriminate]]];
    clear Hr'.
  - apply bool_decide_eq_true in E1 as ->. destruct cdsid as [c|].
    + destruct (like_fields U c name d) as (d1 & Hd1 & HLk & HTl & HDl & HTd & _).
      rewrite Hr in Hd1. injection Hd1 as <-.
      destruct (counts_after_switch _ _ _ _ c HL HD) as [H1 H2].
      unfold counts_match. by rewrite HLk, HTl, HDl, HTd.
    + destruct (anonymous_fields U (s2u "like") name d)
        as (d1 & Hd1 & HLk & HTl & HDl & HTd & _); [by left|].
      rewrite Hr in Hd1. injection Hd1 as <-.
      unfold counts_match. by rewrite HLk, HTl, HDl, HTd.
  - apply bool_decide_eq_true in E2 as ->. destruct cdsid as [c|].
    + destruct (dislike_fields U c name d)
        as (d1 & Hd1 & HDl & HTd & HLk & HTl & _).
      rewrite Hr in Hd1. injection Hd1 as <-.
      destruct (counts_after_switch _ _ _ _ c HD HL) as [H1 H2].
      unfold counts_match. by rewrite HLk, HTl, HDl, HTd.
    + destruct (anonymous_fields U (s2u "dislike") name d)
        as (d1 & Hd1 & HLk & HTl & HDl & HTd & _); [by right|].
      rewrite Hr in Hd1. injection Hd1 as <-.
      unfold counts_match. by rewrite HLk, HTl, HDl, HTd.
  - apply bool_decide_eq_true in E3 as ->.
    rewrite reload_fields in Hr. injection Hr as <-. by split.
Qed.

(** X2: a like followed by a dislike of the same reactor, unknown to the
    document before, leaves the liked list and [total_likes] as they were
    at the start and records the reactor once as disliking. *)
Theorem like_then_dislike_is_a_dislike U c name name' d :
  c ∉ Cache.liked_by_cdsids d ->
  c ∉ Cache.disliked_by_cdsids d ->
  exists d1 d2,
    reaction_transition U (s2u "like") (Some c) name d = Some d1
    /\ reaction_transition U (s2u "dislike") (Some c) name' d1 = Some d2
    /\ Cache.liked_by_cdsids d2 = Cache.liked_by_cdsids d
    /\ Cache.total_likes d2 = Cache.total_likes d
    /\ Cache.disliked_by_cdsids d2 = Cache.disliked_by_cdsids d ++ [c]
    /\ Cache.total_dislikes d2 = (Cache.total_dislikes d + 1)%Z
    /\ Cache.last_disliked_by d2 = name'.
Proof.
  intros HnL HnD.
  destruct (like_fields U c name d) as (d1 & Hd1 & HLk & HTl & HDl & HTd & _).
  destruct (dislike_fields U c name' d1)
    as (d2 & Hd2 & HDl2 & HTd2 & HLk2 & HTl2 & _).
  exists d1, d2. split; [exact Hd1|]. split; [exact Hd2|].
  apply py_in_false in HnL, HnD.
  rewrite HnL in HLk, HTl. rewrite HnD in HDl, HTd.
  assert (E1 : py_in c (Cache.liked_by_cdsids d1) = true).
  { apply py_in_true. rewrite HLk. apply elem_of_app. right.
    by apply list_elem_of_singleton. }
  assert (E2 : py_in c (Cache.disliked_by_cdsids d1) = false)
    by by rewrite HDl.
  rewrite E1 in HLk2, HTl2. rewrite E2 in HDl2, HTd2.
  rewrite HLk2, HTl2, HDl2, HTd2, HLk, HTl, HDl, HTd.
  apply py_in_false in HnL.
  rewrite (list_remove_snoc _ _ HnL).
  repeat split; try lia.
  clear -Hd2. unfold reaction_transition in Hd2.
  change (str_eqb (s2u "dislike") (s2u "like")) with false in Hd2.
  change (str_eqb (s2u "dislike") (s2u "dislike")) with true in Hd2.
  cbv iota zeta in Hd2. by injection Hd2 as <-.
Qed.

Variable C : Collaborators.

(** X3: a reaction other than [like], [dislike] and [reload] is refused
    with status 400, and neither the store nor the trace changes. *)
Theorem invalid_reaction_is_refused (key index : str) (d : Cache.Doc)
    (r : str) (cdsid : option str) (name : str) (w : World) :
  r <> s2u "like" -> r <> s2u "dislike" -> r <> s2u "reload" ->
  ElasticService.update_summary_cache C key index d r cdsid name w
  = (Raise (InsightException 400
              (s2u "Invalid user reaction " ++ r ++ s2u ".")), w).
Proof.
  intros H1 H2 H3. unfold ElasticService.update_summary_cache.
  assert (Hr : reaction_transition (unicode C) r cdsid name d = None).
  { unfold reaction_transition, str_eqb.
    by rewrite !bool_decide_eq_false_2. }
  by rewrite Hr.
Qed.

(** X4: whatever its outcome, [update_summary_cache] leaves every document
    other than the one it is given the key of as it was, in every index,
    and records no collaborator call. *)
Theorem update_summary_cache_touches_one_document (key index : str)
    (d : Cache.Doc) (r : str) (cdsid : option str) (name : str) (w : World)
    (index' id' : str) :
  index' <> index \/ id' <> key ->
  let w' := snd (ElasticService.update_summary_cache C key index d r cdsid name w) in
  stored w' index' id' = stored w index' id' /\ trace w' = trace w.
Proof.
  intros Hne. unfold ElasticService.update_summary_cache.
  destruct (reaction_transition (unicode C) r cdsid name d) as [d1|];
    [|by split].
  unfold bind, time_ms, Es.update, ElasticService.get_document_by_id,
    ElasticService.raise_error_if_index_not_exists,
    ElasticService.check_index_exists, Es.exists_, Es.get, ret, bind.
  cbn. rewrite lookup_insert_eq. cbn. rewrite lookup_insert_eq.
  rewrite lookup_insert_eq. cbn. split; [|reflexivity].
  unfold stored. cbn.
  destruct (decide (index' = index)) as [->|Hix].
  - rewrite lookup_insert_eq. destruct Hne as [Hne|Hne]; [done|].
    rewrite lookup_insert_ne by done.
    destruct (indices w !! index); [reflexivity|]. apply lookup_empty.
  - by rewrite lookup_insert_ne.
Qed.

End MoreReactions.

(** X1, witness: a like on the counted summary. *)
Lemma reactions_keep_counts_matching_witness :
  exists d',
    reaction_transition Demo.tables (s2u "like") (Some (s2u "EF3")) (s2u "Eve")
      Samples.counted = Some d'
    /\ counts_match d'.
Proof.
  eexists. split; [reflexivity|].
  apply (reactions_keep_counts_matching Demo.tables (s2u "like")
           (Some (s2u "EF3")) (s2u "Eve") Samples.counted);
    [split; reflexivity|reflexivity].
Defined.

(** X2, witness: ZZ9 likes, then dislikes, the counted summary. *)
Lemma like_then_dislike_is_a_dislike_witness :
  exists d1 d2,
    reaction_transition Demo.tables (s2u "like") (Some (s2u "ZZ9")) (s2u "Zed")
      Samples.counted = Some d1
    /\ reaction_transition Demo.tables (s2u "dislike") (Some (s2u "ZZ9"))
         (s2u "Zed") d1 = Some d2
    /\ Cache.liked_by_cdsids d2 = [s2u "AB1"; s2u "CD2"]
    /\ Cache.total_likes d2 = 2%Z
    /\ Cache.disliked_by_cdsids d2 = [s2u "EF3"; s2u "ZZ9"]
    /\ Cache.total_dislikes d2 = 2%Z.
Proof.
  destruct (like_then_dislike_is_a_dislike Demo.tables (s2u "ZZ9") (s2u "Zed")
              (s2u "Zed") Samples.counted)
    as (d1 & d2 & H1 & H2 & HL & HT & HD & HTd & _).
  - apply py_in_false. reflexivity.
  - apply py_in_false. reflexivity.
  - exists d1, d2. rewrite HL, HT, HD, HTd. repeat split; assumption.
Defined.

(** X3, witness: the reaction "love". *)
Lemma invalid_reaction_is_refused_witness :
  ElasticService.update_summary_cache Demo.plain Demo.cache_key Demo.cache_index
    Samples.counted (s2u "love") (Some (s2u "AB1")) (s2u "Ann")
    Samples.counted_world
  = (Raise (InsightException 400 (s2u "Invalid user reaction love.")),
     Samples.counted_world).
Proof.
  apply (invalid_reaction_is_refused Demo.plain); discriminate.
Defined.

(** X4, witness: a like under another key leaves the counted summary in
    place. *)
Lemma update_summary_cache_touches_one_document_witness :
  stored
    (snd (ElasticService.update_summary_cache Demo.plain (s2u "42")
            Demo.cache_index Samples.counted (s2u "like") (Some (s2u "ZZ9"))
            (s2u "Zed") Samples.counted_world))
    Demo.cache_index Demo.cache_key
  = Some (StoredCache Samples.counted (Some [1 # 2])).
Proof.
  destruct (update_summary_cache_touches_one_document Demo.plain (s2u "42")
              Demo.cache_index Samples.counted (s2u "like") (Some (s2u "ZZ9"))
              (s2u "Zed") Samples.counted_world Demo.cache_index Demo.cache_key)
    as [H _].
  - right. discriminate.
  - rewrite H. reflexivity.
Defined.

(* ===================================================================== *)
(** * More on searching *)
(* ===================================================================== *)

Section StoreKept.

Variable C : Collaborators.

Lemma keeps_store_ret {A} (a : A) : keeps_store (ret a).
Proof. by intros w. Qed.

Lemma keeps_store_raise {A} e : keeps_store (@raise A e).
Proof. by intros w. Qed.

Lemma keeps_store_lift {A} (r : Res A) : keeps_store (lift r).
Proof. by intros w. Qed.

Lemma keeps_store_log_call e : keeps_store (log_call e).
Proof. by intros w. Qed.

Lemma keeps_store_bind {A B} (m : M A) (k : A -> M B) :
  keeps_store m -> (forall a, keeps_store (k a)) -> keeps_store (bind m k).
Proof.
  intros Hm Hk w. unfold bind. specialize (Hm w).
  destruct (m w) as [[a|e] w1]; [|exact Hm].
  cbn [snd] in Hm. destruct (Hk a w1) as [H1 H2]. destruct Hm as [H3 H4].
  split; congruence.
Qed.

Lemma keeps_store_exists_ name : keeps_store (Es.exists_ name).
Proof. intros w. unfold Es.exists_. by destruct (indices w !! name). Qed.

Lemma keeps_store_count name : keeps_store (Es.count name).
Proof. intros w. unfold Es.count. by destruct (indices w !! name). Qed.

Lemma keeps_store_search name body : keeps_store (Es.search C name body).
Proof.
  unfold Es.search. apply keeps_store_bind; [apply keeps_store_log_call|].
  intros _ w. by destruct (indices w !! name).
Qed.

Lemma keeps_store_llm_call p : keeps_store (LLMService.call C p).
Proof.
  unfold LLMService.call. apply keeps_store_bind; [apply keeps_store_log_call|].
  intros _. apply keeps_store_lift.
Qed.

Lemma extract_keywords_keeps_store q :
  keeps_store (LLMService.extract_keywords C q).
Proof.
  unfold LLMService.extract_keywords.
  apply keeps_store_bind; [apply keeps_store_llm_call|].
  intros [c|]; [|apply keeps_store_ret].
  destruct (truthy c); [|apply keeps_store_ret].
  apply keeps_store_bind; [apply keeps_store_lift|].
  intros ?. apply keeps_store_ret.
Qed.

Lemma get_query_vector_keeps_store q :
  keeps_store (ElasticService.get_query_vector C q).
Proof.
  unfold ElasticService.get_query_vector.
  apply keeps_store_bind; [apply keeps_store_log_call|]. intros _.
  apply keeps_store_bind; [apply keeps_store_lift|]. intros ?.
  apply keeps_store_ret.
Qed.

Lemma raise_error_if_index_not_exists_keeps_store name :
  keeps_store (ElasticService.raise_error_if_index_not_exists name).
Proof.
  unfold ElasticService.raise_error_if_index_not_exists,
    ElasticService.check_index_exists.
  apply keeps_store_bind; [apply keeps_store_exists_|].
  intros [|]; [apply keeps_store_ret|apply keeps_store_raise].
Qed.

Lemma elastic_search_keeps_store rq :
  keeps_store (ElasticService.elastic_search C rq).
Proof.
  unfold ElasticService.elastic_search, ElasticService.get_total_count.
  apply keeps_store_bind; [apply raise_error_if_index_not_exists_keeps_store|].
  intros _.
  apply keeps_store_bind; [apply keeps_store_count|]. intros total_docs.
  destruct (total_docs >? 0)%Z; [|apply keeps_store_ret].
  apply keeps_store_bind.
  - destruct (startswith _ _).
    + unfold ElasticService.get_ai_summary_cache_query.
      apply keeps_store_bind; [apply get_query_vector_keeps_store|].
      intros [? ?]. apply keeps_store_ret.
    + unfold ElasticService.get_es_query.
      apply keeps_store_bind; [apply get_query_vector_keeps_store|].
      intros [? ?]. cbv zeta.
      destruct (_ >? 10000)%Z; [apply keeps_store_raise|].
      destruct (_ >=? total_docs)%Z;
        [apply keeps_store_raise|apply keeps_store_ret].
  - intros body.
    apply keeps_store_bind; [apply keeps_store_search|].
    intros [? ?]. apply keeps_store_ret.
Qed.

(** X5: searching never writes: whatever the request and whatever the
    outcome, [get_documents_from_search_insights] leaves every index and
    the clock as they were. *)
Theorem searching_keeps_the_store rq :
  keeps_store (ElasticService.get_documents_from_search_insights C rq).
Proof.
  unfold ElasticService.get_documents_from_search_insights.
  apply keeps_store_bind; [apply elastic_search_keeps_store|].
  intros [?|]; apply keeps_store_ret.
Qed.

End StoreKept.

Section MoreSearching.

Variable C : Collaborators.

Lemma documents_to_summarize_firstn n (docs : list Source) :
  DataService.documents_to_summarize n docs
  = List.map DataService.filtered_doc (List.firstn n docs).
Proof.
  revert n. induction docs as [|doc docs IH]; intros [|n]; cbn;
    try reflexivity.
  by rewrite IH.
Qed.

(** X6: [get_insights_summary] never raises.  It sends the summarizer one
    prompt, holding the query and the four summary fields of the first ten
    hits at most, and returns the text of the reply, or the empty text if
    the summarizer failed. *)
Theorem get_insights_summary_never_raises (query : str) (found : list Hit)
    (w : World) :
  DataService.get_insights_summary C query found w
  = (Ok (summary_text (connect_llm C (summary_prompt query found))),
     logged (LlmCall (summary_prompt query found)) w)
  /\ match summary_prompt query found with
     | PSummarize q docs =>
         q = query /\ (length docs <= 10)%nat
         /\ length docs = Nat.min 10 (length found)
     | _ => False
     end.
Proof.
  split.
  - unfold DataService.get_insights_summary, LLMService.summarize,
      LLMService.call, try_except, bind, log_call, lift, ret, summary_prompt,
      logged.
    rewrite documents_to_summarize_firstn.
    by destruct (connect_llm C _).
  - unfold summary_prompt. split; [reflexivity|].
    rewrite List.length_map, List.length_firstn, List.length_map. lia.
Qed.

(** X7: a search in an index that holds no document, because it is missing
    or because it is empty, sends nothing to any collaborator and changes
    nothing: it fails with 404 on the missing index and returns no result
    on the empty one. *)
Theorem elastic_search_without_documents (rq : Req.t) (w : World) :
  (forall id, stored w (Req.index rq) id = None) ->
  ElasticService.elastic_search C rq w
  = (match indices w !! Req.index rq with
     | None => Raise (InsightException 404
                        (s2u "Index " ++ Req.index rq ++ s2u " does not exist."))
     | Some _ => Ok None
     end, w).
Proof.
  intros Hnone. unfold ElasticService.elastic_search.
  destruct (indices w !! Req.index rq) as [docs|] eqn:Hix.
  - rewrite (bind_ok _ _ _ _ _ (raise_error_if_index_not_exists_found _ _ _ Hix)).
    rewrite (bind_ok _ _ _ _ _ (get_total_count_found _ _ _ Hix)).
    assert (Hdocs : docs = ∅).
    { apply map_eq. intros id. rewrite lookup_empty.
      rewrite <- (stored_lookup _ _ id _ Hix). apply Hnone. }
    by rewrite Hdocs, map_size_empty.
  - apply bind_raise.
    unfold ElasticService.raise_error_if_index_not_exists.
    by rewrite (bind_ok _ _ _ _ _ (check_index_exists_missing _ _ Hix)).
Qed.

(** X8: a search of the summary cache ignores pagination: the page number
    and the page size of the request change neither the result nor the
    query sent. *)
Theorem cache_search_ignores_pagination (rq : Req.t) (page_no page_size : Z)
    (w : World) :
  startswith ElasticService.ai_summary_cache_prefix (Req.index rq) = true ->
  ElasticService.get_documents_from_search_insights C
    (with_page page_no page_size rq) w
  = ElasticService.get_documents_from_search_insights C rq w.
Proof.
  intros Hpre.
  unfold ElasticService.get_documents_from_search_insights,
    ElasticService.elastic_search.
  cbn [with_page Req.index]. rewrite Hpre.
  reflexivity.
Qed.

(** X9: the filter of an insights query is absent exactly when the request
    names no region, no category and no author; when present it holds one
    clause for each of the three that is named, and no clause has an empty
    list of values. *)
Theorem filters_are_never_empty (fields : list str) (query : str) (v : Vec)
    (tags tag_fields : list str) (rq : Req.t) :
  let must := knn_must (ElasticService.es_knn_query fields query v tags
                          tag_fields rq) in
  (must = None <->
   truthy_opt_list (Req.regions rq) = false
   /\ Req.categories rq = [] /\ Req.authors rq = [])
  /\ (forall clauses, must = Some clauses ->
      clauses <> []
      /\ clauses = ElasticService.es_cosine_filters_query rq
      /\ Forall (fun t => terms_values t <> []) clauses).
Proof.
  cbv zeta. unfold ElasticService.es_knn_query. cbn [knn_must].
  unfold ElasticService.es_cosine_filters_query, truthy_opt_list, truthy_list.
  destruct (Req.regions rq) as [[|r rs]|], (Req.categories rq) as [|c cs],
    (Req.authors rq) as [|a as_]; cbn; (split; [split|]);
    try (intros; discriminate); try (intros [? [? ?]]; discriminate);
    try (intros; tauto);
    intros clauses [= <-]; (split; [discriminate|split; [reflexivity|]]);
    repeat constructor; discriminate.
Qed.

Lemma sub_non_tag_space_chars s :
  Forall (fun c => is_tag_char c || (c =? 32)%N = true) (sub_non_tag_space s).
Proof.
  apply List.Forall_forall. intros c Hc.
  apply List.filter_In in Hc. apply Hc.
Qed.

Lemma sub_non_tag_space_idem s :
  sub_non_tag_space (sub_non_tag_space s) = sub_non_tag_space s.
Proof.
  unfold sub_non_tag_space. induction s as [|c s IH]; [reflexivity|].
  cbn. destruct (is_tag_char c || (c =? 32)%N) eqn:E; [|exact IH].
  cbn. by rewrite E, IH.
Qed.

(** X10: building a query makes exactly one call, to the embedding
    service, also for a page it refuses; the text embedded holds only
    letters, digits, underscores and spaces, and cleaning it again changes
    nothing. *)
Theorem get_es_query_embeds_cleaned_text (rq : Req.t) (total_docs : Z)
    (w : World) :
  exists text,
    trace (snd (ElasticService.get_es_query C rq total_docs w))
    = trace w ++ [EmbedCall text]
    /\ Forall (fun c => is_tag_char c || (c =? 32)%N = true) text
    /\ sub_non_tag_space text = text.
Proof.
  exists (sub_non_tag_space (Req.query rq)).
  split; [|split; [apply sub_non_tag_space_chars|apply sub_non_tag_space_idem]].
  unfold ElasticService.get_es_query, ElasticService.get_query_vector, bind,
    log_call, lift, ret, raise.
  cbn [trace]. destruct (to_embeddings C _); [|reflexivity].
  cbv zeta. destruct (_ >? 10000)%Z; [reflexivity|].
  destruct (_ >=? total_docs)%Z; reflexivity.
Qed.

(** X11: a query built for a page number and a page size of at least one
    asks for at least one document and for no more than the page size, and
    its window ends neither beyond the documents of the index nor beyond
    the 10000 results the index serves. *)
Theorem accepted_window_is_within_bounds (rq : Req.t) (total_docs : Z)
    (w : World) (q : EsQuery) (w' : World) :
  (1 <= Req.page_no rq)%Z -> (1 <= Req.page_size rq)%Z ->
  ElasticService.get_es_query C rq total_docs w = (Ok q, w') ->
  exists size from,
    query_window q = Some (size, from)
    /\ (0 <= from)%Z /\ (1 <= size <= Req.page_size rq)%Z
    /\ (from + size <= total_docs)%Z /\ (from + size <= 10000)%Z.
Proof.
  intros Hp Hs Hrun. unfold ElasticService.get_es_query in Hrun.
  apply bind_ok_inv in Hrun as ([text v] & w1 & _ & Hrun). cbv zeta in Hrun.
  destruct (Z.gtb_spec ((Req.page_no rq - 1) * Req.page_size rq
                        + Req.page_size rq) 10000) as [|Hwin];
    [discriminate|].
  destruct (Z.geb_spec ((Req.page_no rq - 1) * Req.page_size rq) total_docs)
    as [|Htot]; [discriminate|].
  injection Hrun as <- _. cbn [query_window].
  eexists _, _. split; [reflexivity|]. nia.
Qed.

End MoreSearching.

(** X7, witness: the insights index of the demo, empty. *)
Lemma elastic_search_without_documents_witness :
  ElasticService.elastic_search Demo.plain (Demo.request None None 1 24)
    Demo.empty_world
  = (Ok None, Demo.empty_world).
Proof.
  apply (elastic_search_without_documents Demo.plain
           (Demo.request None None 1 24) Demo.empty_world).
  intros id. reflexivity.
Defined.

(** X8, witness: pages 1 and 7 of a search of the cache index give the
    same. *)
Lemma cache_search_ignores_pagination_witness :
  ElasticService.get_documents_from_search_insights Demo.plain
    (with_page 7 3 (Samples.cache_request 1 24)) Samples.counted_world
  = ElasticService.get_documents_from_search_insights Demo.plain
      (Samples.cache_request 1 24) Samples.counted_world.
Proof.
  apply (cache_search_ignores_pagination Demo.plain (Samples.cache_request 1 24)
           7 3 Samples.counted_world).
  reflexivity.
Defined.

(** X11, witness: page 2 of size 6 over the ten insights of the demo asks
    for the four documents that are left from offset 6. *)
Lemma accepted_window_is_within_bounds_witness :
  exists q size from,
    fst (ElasticService.get_es_query Demo.plain (Demo.request None None 2 6) 10
           (Demo.world None)) = Ok q
    /\ query_window q = Some (size, from)
    /\ (1 <= size <= 6)%Z /\ (from + size <= 10)%Z.
Proof.
  destruct (ElasticService.get_es_query Demo.plain (Demo.request None None 2 6)
              10 (Demo.world None)) as [[q|e] w'] eqn:Hrun.
  - destruct (accepted_window_is_within_bounds Demo.plain
                (Demo.request None None 2 6) 10 (Demo.world None) q w')
      as (size & from & Hq & _ & Hsize & Htot & _);
      [cbn; lia|cbn; lia|exact Hrun|].
    exists q, size, from. repeat split; try assumption; apply Hsize.
  - vm_compute in Hrun. discriminate.
Defined.

Section SearchPaths.

Variable C : Collaborators.

Lemma rewrite_query_page_no kq rq :
  Req.page_no (DataService.rewrite_query kq rq) = Req.page_no rq.
Proof. by destruct kq as [[|? ?]|]. Qed.

Lemma get_documents_run_keeps_store (rq : Req.t) (w : World)
    (r : Res (option Documents)) (w' : World) :
  ElasticService.get_documents_from_search_insights C rq w = (r, w') ->
  indices w' = indices w /\ clock_ms w' = clock_ms w.
Proof.
  intros H.
  assert (Hk : keeps_store
                 (ElasticService.get_documents_from_search_insights C rq)).
  { unfold ElasticService.get_documents_from_search_insights.
    apply keeps_store_bind; [apply elastic_search_keeps_store|].
    intros [?|]; apply keeps_store_ret. }
  specialize (Hk w). by rewrite H in Hk.
Qed.

(** X12: a page other than the first, of a search that found documents, is
    answered from the index alone: the reply carries an empty summary, the
    hits of the page that reach the cutoff and the total; the summarizer
    is not called and nothing is written to any index. *)
Theorem later_page_is_not_summarized (rq : Req.t) (w : World)
    (kq : option str) (w1 : World) (response : Documents) (w2 : World) :
  Req.page_no rq <> 1%Z ->
  LLMService.extract_keywords C (Req.query rq) w = (Ok kq, w1) ->
  ElasticService.get_documents_from_search_insights C
    (DataService.rewrite_query kq rq) w1 = (Ok (Some response), w2) ->
  (0 < total_search_count response)%Z ->
  DataService.search_insights_v2 C rq w
  = (Ok (mkSearchResponse SummaryEmpty
           (mkInsightsDict
              (List.filter (fun h => Qle_bool (14 # 1) (hit_score h))
                 (results response))
              (total_search_count response))), w2)
  /\ indices w2 = indices w
  /\ summarize_calls (trace w2) = summarize_calls (trace w).
Proof.
  intros Hpage Hkq Hdocs Htotal. split; [|split].
  - unfold DataService.search_insights_v2.
    rewrite (bind_ok _ _ _ _ _ Hkq). rewrite (bind_ok _ _ _ _ _ Hdocs).
    cbv beta. erewrite bind_ok by reflexivity. cbv zeta.
    rewrite rewrite_query_page_no.
    destruct (Z.gtb_spec (total_search_count response) 0); [|lia].
    destruct (Z.eqb_spec (Req.page_no rq) 1); [done|].
    erewrite bind_ok by reflexivity. reflexivity.
  - destruct (get_documents_run_keeps_store _ _ _ _ Hdocs) as [-> _].
    destruct (extract_keywords_keeps_store C (Req.query rq) w) as [H _].
    by rewrite Hkq in H.
  - pose proof (get_documents_no_summarize C (DataService.rewrite_query kq rq)
                  w1) as H2.
    pose proof (extract_keywords_no_summarize C (Req.query rq) w) as H1.
    rewrite Hdocs in H2. rewrite Hkq in H1. cbn [snd] in H1, H2.
    unfold summarize_calls. rewrite H2, H1. reflexivity.
Qed.

(** X13: a search in an index that does not exist fails with 404 and the
    name of the index, once the keywords are extracted; nothing is sent to
    the embedding service or to the index, and nothing is written. *)
Theorem search_in_missing_index_is_not_found (rq : Req.t) (w : World)
    (kq : option str) (w1 : World) :
  LLMService.extract_keywords C (Req.query rq) w = (Ok kq, w1) ->
  indices w !! Req.index rq = None ->
  DataService.search_insights_v2 C rq w
  = (Raise (InsightException 404
              (s2u "Index " ++ Req.index rq ++ s2u " does not exist.")), w1)
  /\ indices w1 = indices w.
Proof.
  intros Hkq Hix.
  assert (Hw1 : indices w1 = indices w).
  { destruct (extract_keywords_keeps_store C (Req.query rq) w) as [H _].
    by rewrite Hkq in H. }
  split; [|exact Hw1].
  unfold DataService.search_insights_v2.
  rewrite (bind_ok _ _ _ _ _ Hkq). apply bind_raise.
  unfold ElasticService.get_documents_from_search_insights. apply bind_raise.
  unfold ElasticService.elastic_search. apply bind_raise.
  rewrite rewrite_query_index.
  unfold ElasticService.raise_error_if_index_not_exists.
  rewrite <- Hw1 in Hix.
  by rewrite (bind_ok _ _ _ _ _ (check_index_exists_missing _ _ Hix)).
Qed.

End SearchPaths.

(** X12, witness: page 2 of a search that finds five insights, three of
    them at or above the cutoff. *)
Lemma later_page_is_not_summarized_witness :
  exists w2,
    DataService.search_insights_v2 Demo.five_hits (Demo.request None None 2 2)
      (Demo.world None)
    = (Ok (mkSearchResponse SummaryEmpty
             (mkInsightsDict
                [Demo.hit "a" (20 # 1); Demo.hit "b" (15 # 1);
                 Demo.hit "c" (14 # 1)] 5)), w2)
    /\ indices w2 = indices (Demo.world None)
    /\ summarize_calls (trace w2) = 0%nat.
Proof.
  pose proof (later_page_is_not_summarized Demo.five_hits
                (Demo.request None None 2 2) (Demo.world None) None
                (snd (LLMService.extract_keywords Demo.five_hits
                        (s2u "blue #cruise feature") (Demo.world None)))
                (mkDocuments
                   [Demo.hit "a" (20 # 1); Demo.hit "b" (15 # 1);
                    Demo.hit "c" (14 # 1); Demo.hit "d" (139 # 10);
                    Demo.hit "e" (2 # 1)] 5)
                (snd (ElasticService.get_documents_from_search_insights
                        Demo.five_hits (Demo.request None None 2 2)
                        (snd (LLMService.extract_keywords Demo.five_hits
                                (s2u "blue #cruise feature") (Demo.world None))))))
    as H.
  destruct H as (Hrun & Hix & Hcalls).
  - discriminate.
  - apply run_eq. vm_compute. reflexivity.
  - apply run_eq. vm_compute. reflexivity.
  - reflexivity.
  - eexists. split; [exact Hrun|]. split; [exact Hix|exact Hcalls].
Defined.

(** X13, witness: a search in an index nobody created. *)
Lemma search_in_missing_index_is_not_found_witness :
  fst (DataService.search_insights_v2 Demo.plain
         (Req.set_index (s2u "insights_qa") (Demo.request None None 1 24))
         (Demo.world None))
  = Raise (InsightException 404 (s2u "Index insights_qa does not exist.")).
Proof.
  destruct (search_in_missing_index_is_not_found Demo.plain
              (Req.set_index (s2u "insights_qa") (Demo.request None None 1 24))
              (Demo.world None) None
              (snd (LLMService.extract_keywords Demo.plain
                      (s2u "blue #cruise feature") (Demo.world None))))
    as [Hrun _].
  - apply run_eq. vm_compute. reflexivity.
  - reflexivity.
  - rewrite Hrun. reflexivity.
Defined.

(* ===================================================================== *)
(** * Deleting insights *)
(* ===================================================================== *)

Section Deleting.

Implicit Types (w : World) (index id : str) (key : Z).

(** X14: [delete_insights] with a key other than zero removes the one
    document stored under the decimal rendering of the key, and nothing
    else: the other documents of the index and the other indices stay, and
    no collaborator is called.  It fails, changing nothing, with 404 if
    the index does not exist and with the index's not-found error if the
    document does not. *)
Theorem delete_insights_by_key_removes_one_document index key w :
  key <> 0%Z ->
  let r := ElasticDelete.delete_insights index (Some key) w in
  match indices w !! index with
  | None =>
      r = (Raise (InsightException 404
                    (s2u "Index " ++ index ++ s2u " does not exist.")), w)
  | Some docs =>
      match docs !! str_of_int key with
      | None => r = (Raise (NotFoundError (str_of_int key)), w)
      | Some _ =>
          fst r = Ok tt
          /\ stored (snd r) index (str_of_int key) = None
          /\ (forall index' id,
                index' <> index \/ id <> str_of_int key ->
                stored (snd r) index' id = stored w index' id)
          /\ is_Some (indices (snd r) !! index)
          /\ trace (snd r) = trace w
      end
  end.
Proof.
  intros Hkey r. subst r.
  unfold ElasticDelete.delete_insights, ElasticDelete.delete_insight.
  destruct (Z.eqb_spec key 0) as [|_]; [done|].
  unfold ElasticDelete.delete_insight_by_key, EsDelete.delete_document.
  destruct (indices w !! index) as [docs|] eqn:Hix.
  - rewrite (bind_ok _ _ _ _ _ (raise_error_if_index_not_exists_found _ _ _ Hix)).
    rewrite Hix.
    destruct (docs !! str_of_int key) as [sd|] eqn:Hdoc; [|reflexivity].
    cbn [fst snd]. split; [reflexivity|]. unfold stored. cbn [Es.set_indices indices trace].
    split; [|split; [|split]].
    + rewrite lookup_insert_eq. apply lookup_delete_eq.
    + intros index' id Hne.
      destruct (decide (index' = index)) as [->|Hne'].
      * rewrite lookup_insert_eq, Hix.
        destruct Hne as [Hne|Hne]; [done|]. by apply lookup_delete_ne.
      * by rewrite lookup_insert_ne.
    + rewrite lookup_insert_eq. by eexists.
    + reflexivity.
  - apply bind_raise.
    unfold ElasticService.raise_error_if_index_not_exists.
    by rewrite (bind_ok _ _ _ _ _ (check_index_exists_missing _ _ Hix)).
Qed.

(** X15: [delete_insights] without a key, and also with the key zero,
    deletes the whole index, with every document in it, and leaves the
    other indices as they are; on an index that does not exist it fails
    with 404 and changes nothing. *)
Theorem delete_insights_without_key_drops_the_index index (key : option Z) w :
  key = None \/ key = Some 0%Z ->
  let r := ElasticDelete.delete_insights index key w in
  match indices w !! index with
  | None =>
      r = (Raise (InsightException 404
                    (s2u "Index " ++ index ++ s2u " does not exist.")), w)
  | Some _ =>
      fst r = Ok tt
      /\ indices (snd r) !! index = None
      /\ (forall id, stored (snd r) index id = None)
      /\ (forall index', index' <> index ->
            indices (snd r) !! index' = indices w !! index')
      /\ trace (snd r) = trace w
  end.
Proof.
  intros Hkey r. subst r.
  assert (Hd : ElasticDelete.delete_insight index key
               = EsDelete.delete_index index)
    by by destruct Hkey as [->| ->].
  unfold ElasticDelete.delete_insights. rewrite Hd.
  unfold EsDelete.delete_index.
  destruct (indices w !! index) as [docs|] eqn:Hix.
  - rewrite (bind_ok _ _ _ _ _ (raise_error_if_index_not_exists_found _ _ _ Hix)).
    rewrite Hix. cbn [fst snd]. unfold stored.
    cbn [Es.set_indices indices trace].
    rewrite lookup_delete_eq.
    split; [reflexivity|]. split; [reflexivity|]. split; [reflexivity|].
    split; [|reflexivity].
    intros index' Hne. by apply lookup_delete_ne.
  - apply bind_raise.
    unfold ElasticService.raise_error_if_index_not_exists.
    by rewrite (bind_ok _ _ _ _ _ (check_index_exists_missing _ _ Hix)).
Qed.

End Deleting.

(** X14, witness: insight 3 of the ten is deleted, insight 4 stays. *)
Lemma delete_insights_by_key_removes_one_document_witness :
  stored (snd (ElasticDelete.delete_insights Demo.insights_index (Some 3%Z)
                 (Demo.world None))) Demo.insights_index (s2u "3") = None
  /\ stored (snd (ElasticDelete.delete_insights Demo.insights_index (Some 3%Z)
                    (Demo.world None))) Demo.insights_index (s2u "4")
     = Some (StoredInsight (Demo.insight "doc")).
Proof.
  pose proof (delete_insights_by_key_removes_one_document Demo.insights_index
                3%Z (Demo.world None)) as H.
  cbv zeta in H.
  change (indices (Demo.world None) !! Demo.insights_index)
    with (Some Demo.ten_insights) in H.
  change (Demo.ten_insights !! str_of_int 3)
    with (Some (StoredInsight (Demo.insight "doc"))) in H.
  destruct H as (_ & Hgone & Hrest & _); [discriminate|].
  split; [exact Hgone|].
  rewrite (Hrest Demo.insights_index (s2u "4")); [reflexivity|].
  right. discriminate.
Defined.

(** X15, witness: the key 0 drops the ten insights with their index. *)
Lemma delete_insights_without_key_drops_the_index_witness :
  indices (snd (ElasticDelete.delete_insights Demo.insights_index (Some 0%Z)
                  (Demo.world None))) !! Demo.insights_index = None.
Proof.
  pose proof (delete_insights_without_key_drops_the_index Demo.insights_index
                (Some 0%Z) (Demo.world None)) as H.
  cbv zeta in H.
  change (indices (Demo.world None) !! Demo.insights_index)
    with (Some Demo.ten_insights) in H.
  destruct H as (_ & Hgone & _); [by right|].
  exact Hgone.
Defined.

(* ===================================================================== *)
(** * The job history *)
(* ===================================================================== *)

Section JobHistory.

Import AsyncJobHandler.

Implicit Types (h : gmap Z Job) (id : Z).

Lemma fold_min_in (k : Z) (ks : list Z) :
  List.In (List.fold_right Z.min k ks) (k :: ks).
Proof.
  induction ks as [|x ks IH]; [by left|]. cbn [List.fold_right].
  destruct (Z.min_spec x (List.fold_right Z.min k ks)) as [[_ ->]|[_ ->]].
  - right. by left.
  - destruct IH as [IH|IH]; [by left|]. right. by right.
Qed.

Lemma fold_min_le (k : Z) (ks : list Z) (x : Z) :
  List.In x (k :: ks) -> (List.fold_right Z.min k ks <= x)%Z.
Proof.
  induction ks as [|y ks IH]; cbn [List.fold_right].
  - intros [->|[]]. lia.
  - intros [->|[->|H]].
    + assert (List.fold_right Z.min x ks <= x)%Z by (apply IH; by left). lia.
    + lia.
    + assert (List.fold_right Z.min k ks <= x)%Z by (apply IH; by right). lia.
Qed.

Lemma in_keys h id :
  List.In id (List.map fst (map_to_list h)) <-> is_Some (h !! id).
Proof.
  rewrite List.in_map_iff. split.
  - intros ([k j] & <- & Hin). apply list_elem_of_In in Hin.
    apply elem_of_map_to_list in Hin. by eexists.
  - intros [j Hj]. exists (id, j). split; [reflexivity|].
    apply list_elem_of_In. by apply elem_of_map_to_list.
Qed.

(** The oldest job of a history that is not empty: its id is the least. *)
Lemma oldest_timestamp_least h :
  (0 < size h)%nat ->
  exists oldest,
    oldest_timestamp h = Some oldest
    /\ is_Some (h !! oldest)
    /\ (forall id, is_Some (h !! id) -> (oldest <= id)%Z).
Proof.
  intros Hsize. unfold oldest_timestamp.
  destruct (List.map fst (map_to_list h)) as [|k ks] eqn:Hkeys.
  - apply List.map_eq_nil in Hkeys. apply map_to_list_empty_iff in Hkeys.
    subst h. rewrite map_size_empty in Hsize. lia.
  - eexists. split; [reflexivity|]. split.
    + apply in_keys. rewrite Hkeys. apply fold_min_in.
    + intros id Hid. apply fold_min_le. rewrite <- Hkeys. by apply in_keys.
Qed.

(** X16: a history of at most thirty jobs still holds at most thirty after
    a registration, the registered job can be read back, and below the
    capacity no other job is lost. *)
Theorem register_respects_capacity id (nm st : str) (d : option JobData) h :
  (size h <= capacity)%nat ->
  (size (register id nm st d h) <= capacity)%nat
  /\ get id (register id nm st d h) = Some (mkJob id nm st d)
  /\ ((size h < capacity)%nat ->
      forall id', id' <> id -> get id' (register id nm st d h) = get id' h).
Proof.
  intros Hsize. unfold register, get.
  split; [|split].
  - destruct (Nat.leb_spec capacity (size h)) as [Hfull|Hroom].
    + destruct (oldest_timestamp_least h) as (oldest & -> & Hin & _);
        [unfold capacity in Hfull; lia|].
      pose proof (map_size_delete_Some oldest h Hin) as Hdel.
      rewrite map_size_insert.
      unfold capacity in *.
      destruct (base.delete oldest h !! id); cbn; lia.
    + rewrite map_size_insert. unfold capacity in *.
      destruct (h !! id); cbn; lia.
  - apply lookup_insert_eq.
  - intros Hroom id' Hne.
    destruct (Nat.leb_spec capacity (size h)); [lia|].
    by apply lookup_insert_ne.
Qed.

(** X17: a registration in a history at capacity first removes the job
    with the least id and then stores the registered one: afterwards the
    registered job is read back under its id, the job with the least id is
    gone unless it is the one registered, and every other job is as it
    was. *)
Theorem register_at_capacity_evicts_the_oldest id (nm st : str)
    (d : option JobData) h :
  (capacity <= size h)%nat ->
  exists oldest,
    is_Some (h !! oldest)
    /\ (forall id', is_Some (h !! id') -> (oldest <= id')%Z)
    /\ (forall id',
          get id' (register id nm st d h)
          = if (id' =? id)%Z then Some (mkJob id nm st d)
            else if (id' =? oldest)%Z then None else get id' h).
Proof.
  intros Hfull.
  destruct (oldest_timestamp_least h) as (oldest & Hold & Hin & Hleast);
    [unfold capacity in Hfull; lia|].
  exists oldest. split; [exact Hin|]. split; [exact Hleast|].
  intros id'. unfold register, get. rewrite Hold.
  destruct (Nat.leb_spec capacity (size h)); [|lia].
  destruct (Z.eqb_spec id' id) as [->|Hne]; [apply lookup_insert_eq|].
  rewrite lookup_insert_ne by done.
  destruct (Z.eqb_spec id' oldest) as [->|Hne'].
  - apply lookup_delete_eq.
  - by apply lookup_delete_ne.
Qed.

(** X18: every operation keeps each job of the history stored under its
    own id; an update, moreover, changes only the status and the data of
    the job it names, if that job exists: its id and name stay, and every
    other job is as it was. *)
Theorem job_history_stays_well_keyed id (jid : option Z) (nm st : str)
    (d : option JobData) h :
  well_keyed h ->
  well_keyed (register id nm st d h)
  /\ well_keyed (update jid st d h)
  /\ well_keyed (remove jid h)
  /\ (forall id',
        get id' (update jid st d h)
        = if bool_decide (jid = Some id')
          then option_map (fun job => mkJob id' (name job) st d) (get id' h)
          else get id' h).
Proof.
  intros Hwk.
  assert (Hdel : forall k, well_keyed (base.delete k h)).
  { intros k i j Hj. apply lookup_delete_Some in Hj as [_ Hj].
    by apply Hwk. }
  split; [|split; [|split]].
  - unfold register. intros i j Hj.
    apply lookup_insert_Some in Hj as [[<- <-]|[_ Hj]]; [reflexivity|].
    destruct (capacity <=? size h)%nat; [|by apply Hwk].
    destruct (oldest_timestamp h); [by apply (Hdel z)|by apply Hwk].
  - unfold update. destruct jid as [k|]; [|exact Hwk].
    destruct (h !! k) as [job|] eqn:Hk; [|exact Hwk].
    intros i j Hj. apply lookup_insert_Some in Hj as [[<- <-]|[_ Hj]].
    + cbn. by apply Hwk.
    + by apply Hwk.
  - unfold remove, cleanup. destruct jid as [k|].
    + destruct (k =? 0)%Z; [by intros i j Hj|].
      destruct (h !! k); [apply Hdel|exact Hwk].
    + by intros i j Hj.
  - intros id'. unfold update, get. destruct jid as [k|];
      [|by rewrite bool_decide_eq_false_2].
    destruct (decide (k = id')) as [->|Hne].
    + rewrite bool_decide_eq_true_2 by reflexivity.
      destruct (h !! id') as [job|] eqn:Hk; [|by rewrite Hk].
      rewrite lookup_insert_eq. cbn. by rewrite (Hwk _ _ Hk).
    + rewrite bool_decide_eq_false_2 by congruence.
      destruct (h !! k); [by apply lookup_insert_ne|reflexivity].
Qed.

(** X19: [remove] with a job id other than zero removes that job and no
    other; without an id, and also with the id zero, it empties the
    history. *)
Theorem remove_drops_one_job_or_all (jid : option Z) h id' :
  get id' (remove jid h)
  = match jid with
    | Some id => if (id =? 0)%Z then None
                 else if (id' =? id)%Z then None else get id' h
    | None => None
    end.
Proof.
  unfold remove, cleanup, get. destruct jid as [k|]; [|apply lookup_empty].
  destruct (k =? 0)%Z; [apply lookup_empty|].
  destruct (Z.eqb_spec id' k) as [->|Hne].
  - destruct (h !! k) eqn:Hk; [apply lookup_delete_eq|exact Hk].
  - destruct (h !! k); [by apply lookup_delete_ne|reflexivity].
Qed.

End JobHistory.

Lemma full_history_keys id :
  is_Some (Samples.full_history !! id) -> (101 <= id <= 130)%Z.
Proof.
  intros H. apply in_keys in H. vm_compute in H.
  repeat (destruct H as [<-|H]; [lia|]). destruct H.
Qed.

(** X16, witness: job 130 is registered in the history of jobs 101 to
    129. *)
Lemma register_respects_capacity_witness :
  (size (AsyncJobHandler.register 130 (s2u "sync") (s2u "IN_PROGRESS") None
           Samples.nearly_full_history) <= 30)%nat
  /\ AsyncJobHandler.get 130
       (AsyncJobHandler.register 130 (s2u "sync") (s2u "IN_PROGRESS") None
          Samples.nearly_full_history) = Some (Samples.job 130)
  /\ AsyncJobHandler.get 101
       (AsyncJobHandler.register 130 (s2u "sync") (s2u "IN_PROGRESS") None
          Samples.nearly_full_history) = Some (Samples.job 101).
Proof.
  assert (Hsize : size Samples.nearly_full_history = 29%nat)
    by (vm_compute; reflexivity).
  destruct (register_respects_capacity 130 (s2u "sync") (s2u "IN_PROGRESS") None
              Samples.nearly_full_history)
    as (Hbound & Hget & Hkept).
  - rewrite Hsize. unfold AsyncJobHandler.capacity. lia.
  - split; [exact Hbound|]. split; [exact Hget|].
    rewrite (Hkept ltac:(rewrite Hsize; unfold AsyncJobHandler.capacity; lia)
               101%Z ltac:(lia)).
    vm_compute. reflexivity.
Defined.

(** X17, witness: with jobs 101 to 130 in the history, registering job 131
    drops job 101 and keeps job 102. *)
Lemma register_at_capacity_evicts_the_oldest_witness :
  AsyncJobHandler.get 101
    (AsyncJobHandler.register 131 (s2u "sync") (s2u "IN_PROGRESS") None
       Samples.full_history) = None
  /\ AsyncJobHandler.get 102
       (AsyncJobHandler.register 131 (s2u "sync") (s2u "IN_PROGRESS") None
          Samples.full_history) = Some (Samples.job 102)
  /\ AsyncJobHandler.get 131
       (AsyncJobHandler.register 131 (s2u "sync") (s2u "IN_PROGRESS") None
          Samples.full_history) = Some (Samples.job 131).
Proof.
  destruct (register_at_capacity_evicts_the_oldest 131 (s2u "sync")
              (s2u "IN_PROGRESS") None Samples.full_history)
    as (oldest & Hin & Hleast & Hget).
  - assert (Hsize : size Samples.full_history = 30%nat)
      by (vm_compute; reflexivity).
    rewrite Hsize. unfold AsyncJobHandler.capacity. lia.
  - assert (Hold : oldest = 101%Z).
    { apply full_history_keys in Hin.
      assert (oldest <= 101)%Z by (apply Hleast; vm_compute; by eexists).
      lia. }
    subst oldest. rewrite !Hget. repeat split.
Defined.

Lemma two_jobs_well_keyed : well_keyed Samples.two_jobs.
Proof.
  intros id job H. unfold Samples.two_jobs in H.
  apply lookup_insert_Some in H as [[<- <-]|[_ H]]; [reflexivity|].
  apply lookup_singleton_Some in H as [<- <-]. reflexivity.
Qed.

(** X18, witness: job 101 of two is completed; job 102 is as it was. *)
Lemma job_history_stays_well_keyed_witness :
  well_keyed
    (AsyncJobHandler.update (Some 101%Z) (s2u "COMPLETED") (Some []) Samples.two_jobs)
  /\ AsyncJobHandler.get 101
       (AsyncJobHandler.update (Some 101%Z) (s2u "COMPLETED") (Some [])
          Samples.two_jobs)
     = Some (AsyncJobHandler.mkJob 101 (s2u "sync") (s2u "COMPLETED") (Some []))
  /\ AsyncJobHandler.get 102
       (AsyncJobHandler.update (Some 101%Z) (s2u "COMPLETED") (Some [])
          Samples.two_jobs)
     = Some (Samples.job 102).
Proof.
  destruct (job_history_stays_well_keyed 7 (Some 101%Z) (s2u "sync")
              (s2u "COMPLETED") (Some []) Samples.two_jobs)
    as (_ & Hwk & _ & Hget).
  - exact two_jobs_well_keyed.
  - split; [exact Hwk|]. rewrite !Hget. split; reflexivity.
Defined.

(* ===================================================================== *)
(** * The authors of a search request *)
(* ===================================================================== *)

Section Authors.

Import SearchRequest.

Implicit Types (s g pre post name : str) (names : list str).

Lemma group_until_paren_sound s g :
  group_until_paren s = Some g ->
  exists post, s = g ++ (41%N :: post) /\ (41 ∉ g)%N /\ (10 ∉ g)%N.
Proof.
  revert g. induction s as [|c s IH]; intros g; cbn; [discriminate|].
  destruct (N.eqb_spec c 41) as [->|H41].
  - intros [= <-]. exists s. repeat split; apply not_elem_of_nil.
  - destruct (N.eqb_spec c 10) as [|H10]; [discriminate|].
    destruct (group_until_paren s) as [g'|]; [|discriminate].
    intros [= <-]. destruct (IH g' eq_refl) as (post & -> & Hp).
    exists post. split; [reflexivity|].
    destruct Hp as [Hp Hn].
    split; apply not_elem_of_cons; (split; [congruence|assumption]).
Qed.

Lemma group_until_paren_complete g post :
  (41 ∉ g)%N -> (10 ∉ g)%N -> group_until_paren (g ++ (41%N :: post)) = Some g.
Proof.
  induction g as [|c g IH]; intros Hp Hn; [reflexivity|].
  apply not_elem_of_cons in Hp as [Hp1 Hp]. apply not_elem_of_cons in Hn as [Hn1 Hn].
  cbn. destruct (N.eqb_spec c 41); [congruence|].
  destruct (N.eqb_spec c 10); [congruence|].
  by rewrite (IH Hp Hn).
Qed.

Lemma group_until_paren_none s : (41 ∉ s)%N -> group_until_paren s = None.
Proof.
  induction s as [|c s IH]; [reflexivity|]. intros H.
  apply not_elem_of_cons in H as [H1 H]. cbn.
  destruct (N.eqb_spec c 41); [congruence|].
  destruct (c =? 10)%N; [reflexivity|]. by rewrite (IH H).
Qed.

Lemma search_parenthesised_sound name g :
  search_parenthesised name = Some g ->
  exists pre post,
    name = pre ++ (40%N :: g ++ (41%N :: post)) /\ (41 ∉ g)%N /\ (10 ∉ g)%N.
Proof.
  induction name as [|c s IH]; cbn; [discriminate|]. intros H.
  assert (Hrec : search_parenthesised s = Some g ->
                 exists pre post,
                   c :: s = pre ++ (40%N :: g ++ (41%N :: post))
                   /\ (41 ∉ g)%N /\ (10 ∉ g)%N).
  { intros Hs. destruct (IH Hs) as (pre & post & -> & Hp).
    by exists (c :: pre), post. }
  destruct (N.eqb_spec c 40) as [->|_]; [|by apply Hrec].
  destruct (group_until_paren s) as [g'|] eqn:Hg; [|by apply Hrec].
  injection H as <-.
  destruct (group_until_paren_sound _ _ Hg) as (post & -> & Hp).
  by exists [], post.
Qed.

Lemma search_parenthesised_first pre g post :
  (40 ∉ pre)%N -> (41 ∉ g)%N -> (10 ∉ g)%N ->
  search_parenthesised (pre ++ (40%N :: g ++ (41%N :: post))) = Some g.
Proof.
  intros Hpre Hp Hn. induction pre as [|c pre IH].
  - cbn. by rewrite group_until_paren_complete.
  - apply not_elem_of_cons in Hpre as [Hc Hpre]. cbn.
    destruct (N.eqb_spec c 40); [congruence|]. by apply IH.
Qed.

Lemma search_parenthesised_none name :
  (40 ∉ name)%N \/ (41 ∉ name)%N -> search_parenthesised name = None.
Proof.
  induction name as [|c s IH]; [reflexivity|]. intros H. cbn.
  assert (Hs : search_parenthesised s = None).
  { apply IH. destruct H as [H|H]; apply not_elem_of_cons in H as [_ H];
      [by left|by right]. }
  destruct (N.eqb_spec c 40) as [->|_]; [|exact Hs].
  destruct H as [H|H]; [by apply not_elem_of_cons in H as [? _]|].
  apply not_elem_of_cons in H as [_ H].
  by rewrite (group_until_paren_none _ H).
Qed.

(** X20: from display names that each hold an identity between the first
    opening parenthesis and the next closing one, on one line, the request
    takes exactly these identities, one for each name and in order. *)
Theorem author_cdsids_round_trip names (ids : list str) :
  Forall2 (fun name g =>
             exists pre post,
               name = pre ++ (40%N :: g ++ (41%N :: post))
               /\ (40 ∉ pre)%N /\ (41 ∉ g)%N /\ (10 ∉ g)%N) names ids ->
  author_cdsids names = ids.
Proof.
  induction 1 as [|name g names ids (pre & post & -> & Hpre & Hp & Hn) _ IH];
    [reflexivity|].
  cbn [author_cdsids].
  by rewrite (search_parenthesised_first _ _ post Hpre Hp Hn), IH.
Qed.

(** X21: every identity the request takes stands in one of the display
    names between an opening and a closing parenthesis and holds neither a
    closing parenthesis nor a newline; a name without an opening or
    without a closing parenthesis gives none, so that the list of
    identities is never longer than the list of names. *)
Theorem author_cdsids_come_from_parentheses names :
  (forall g, g ∈ author_cdsids names ->
     exists name pre post,
       name ∈ names /\ name = pre ++ (40%N :: g ++ (41%N :: post))
       /\ (41 ∉ g)%N /\ (10 ∉ g)%N)
  /\ (Forall (fun name => (40 ∉ name)%N \/ (41 ∉ name)%N) names ->
      author_cdsids names = [])
  /\ (length (author_cdsids names) <= length names)%nat.
Proof.
  split; [|split].
  - induction names as [|name names IH]; cbn [author_cdsids]; intros g Hg.
    + by apply elem_of_nil in Hg.
    + assert (Hrec : g ∈ author_cdsids names ->
                     exists name0 pre post,
                       name0 ∈ name :: names
                       /\ name0 = pre ++ (40%N :: g ++ (41%N :: post))
                       /\ (41 ∉ g)%N /\ (10 ∉ g)%N).
      { intros H. destruct (IH g H) as (n0 & pre & post & Hin & Hrest).
        exists n0, pre, post. split; [by apply list_elem_of_further|exact Hrest]. }
      destruct (search_parenthesised name) as [g'|] eqn:Hs; [|by apply Hrec].
      apply elem_of_cons in Hg as [->|Hg]; [|by apply Hrec].
      destruct (search_parenthesised_sound _ _ Hs) as (pre & post & Hname & Hp).
      exists name, pre, post. split; [apply list_elem_of_here|by split].
  - induction 1 as [|name names Hname _ IH]; [reflexivity|].
    cbn [author_cdsids]. by rewrite (search_parenthesised_none _ Hname).
  - induction names as [|name names IH]; [reflexivity|].
    cbn [author_cdsids]. destruct (search_parenthesised name); cbn; lia.
Qed.

End Authors.

(** X20, witness: two display names. *)
Lemma author_cdsids_round_trip_witness :
  SearchRequest.author_cdsids [s2u "Doe, John (JDOE1)"; s2u "Roe, R. (RROE2) (ext)"]
  = [s2u "JDOE1"; s2u "RROE2"].
Proof.
  apply (author_cdsids_round_trip
           [s2u "Doe, John (JDOE1)"; s2u "Roe, R. (RROE2) (ext)"]
           [s2u "JDOE1"; s2u "RROE2"]).
  constructor; [|constructor; [|constructor]].
  - exists (s2u "Doe, John "), [].
    split; [reflexivity|]. repeat split; apply (bool_decide_unpack _); vm_compute; exact I.
  - exists (s2u "Roe, R. "), (s2u " (ext)").
    split; [reflexivity|]. repeat split; apply (bool_decide_unpack _); vm_compute; exact I.
Defined.

(* ===================================================================== *)
(** * A search that names a cached summary *)
(* ===================================================================== *)

Section NamedSummary.

Variable C : Collaborators.
Variable p : Event -> bool.

Lemma rewrite_query_cache_id kq rq :
  Req.ai_summary_cache_id (DataService.rewrite_query kq rq)
  = Req.ai_summary_cache_id rq.
Proof. by destruct kq as [[|? ?]|]. Qed.

Lemma get_insights_summary_adds (q : str) (found : list Hit) :
  adds (if p (LlmCall (summary_prompt q found)) then 1 else 0) p
    (DataService.get_insights_summary C q found).
Proof.
  unfold DataService.get_insights_summary, LLMService.summarize, summary_prompt.
  rewrite documents_to_summarize_firstn.
  apply adds_try_except; [|intros ?; apply silent_ret].
  destruct (p (LlmCall _)) eqn:E;
    [by apply adds_llm_call|by apply silent_llm_call].
Qed.

Lemma cache_ai_summaries_of_key_silent (c : char) (k topic uq : str)
    (s : option str) (index : str) (cdsid : option str) (name : str)
    (regions : option (list str)) :
  silent p
    (ElasticService.cache_ai_summaries C (Some (c :: k)) topic uq s index cdsid
       name regions).
Proof.
  unfold ElasticService.cache_ai_summaries,
    ElasticService.create_index_if_not_exists,
    ElasticService.check_index_exists.
  silence;
    first [ apply get_document_by_id_silent | apply update_summary_cache_silent ].
Qed.

(** X22: on the first page of a search that found documents and names the
    summary to refresh, the only call to a collaborator after the index
    has answered is one request to the summarizer, for the original query
    and the hits that reach the cutoff: the cache is not searched, no
    queries are compared and no text is embedded, whatever the outcome. *)
Theorem search_naming_a_summary_only_summarizes (rq : Req.t) (w : World)
    (kq : option str) (w1 : World) (response : Documents) (w2 : World)
    (c : char) (k : str) :
  Req.page_no rq = 1%Z ->
  Req.ai_summary_cache_id rq = Some (c :: k) ->
  LLMService.extract_keywords C (Req.query rq) w = (Ok kq, w1) ->
  ElasticService.get_documents_from_search_insights C
    (DataService.rewrite_query kq rq) w1 = (Ok (Some response), w2) ->
  (0 < total_search_count response)%Z ->
  calls p (trace (snd (DataService.search_insights_v2 C rq w)))
  = ((if p (LlmCall
              (summary_prompt (Req.query rq)
                 (List.filter (fun h => Qle_bool (14 # 1) (hit_score h))
                    (results response))))
      then 1 else 0) + calls p (trace w2))%nat.
Proof.
  intros Hpage Hid Hkq Hdocs Htotal.
  unfold DataService.search_insights_v2.
  rewrite (bind_ok _ _ _ _ _ Hkq). rewrite (bind_ok _ _ _ _ _ Hdocs).
  cbv beta. erewrite bind_ok by reflexivity. cbv zeta.
  rewrite rewrite_query_page_no, Hpage.
  destruct (Z.gtb_spec (total_search_count response) 0); [|lia].
  change (1 =? 1)%Z with true. cbv iota.
  cbn [Req.ai_summary_cache_id Req.set_index].
  rewrite rewrite_query_cache_id, Hid. cbn [truthy_opt truthy].
  apply adds_bind.
  - apply adds_bind; [|intros ?; apply silent_ret].
    unfold DataService.summarize_and_cache.
    apply adds_bind; [apply get_insights_summary_adds|].
    intros ?. cbn [Req.ai_summary_cache_id Req.set_index].
    rewrite rewrite_query_cache_id, Hid.
    apply cache_ai_summaries_of_key_silent.
  - intros [?|]; [apply silent_ret|apply silent_raise].
Qed.

End NamedSummary.

(** X22, witness: the first page of a search that names the cached summary
    of the demo sends one request to the summarizer. *)
Lemma search_naming_a_summary_only_summarizes_witness :
  calls (fun e => match e with LlmCall (PSummarize _ _) => true | _ => false end)
    (trace (snd (DataService.search_insights_v2 Demo.five_hits
                   (Demo.request (Some Demo.cache_key) None 1 24)
                   (Demo.world (Some (Demo.cache_docs None))))))
  = 1%nat.
Proof.
  rewrite (search_naming_a_summary_only_summarizes Demo.five_hits _
             (Demo.request (Some Demo.cache_key) None 1 24)
             (Demo.world (Some (Demo.cache_docs None))) None
             (snd (LLMService.extract_keywords Demo.five_hits
                     (s2u "blue #cruise feature")
                     (Demo.world (Some (Demo.cache_docs None)))))
             (mkDocuments
                [Demo.hit "a" (20 # 1); Demo.hit "b" (15 # 1);
                 Demo.hit "c" (14 # 1); Demo.hit "d" (139 # 10);
                 Demo.hit "e" (2 # 1)] 5)
             (snd (ElasticService.get_documents_from_search_insights
                     Demo.five_hits (Demo.request (Some Demo.cache_key) None 1 24)
                     (snd (LLMService.extract_keywords Demo.five_hits
                             (s2u "blue #cruise feature")
                             (Demo.world (Some (Demo.cache_docs None)))))))
             49%N (s2u "700000000000")).
  - reflexivity.
  - reflexivity.
  - reflexivity.
  - apply run_eq. vm_compute. reflexivity.
  - apply run_eq. vm_compute. reflexivity.
  - reflexivity.
Defined.
